(** * populate_req: pinning unversioned entries of a requirements file

    A shallow embedding of [populate_req.py] and the properties of its
    line transform and of its file driver.

    Conventions of the embedding.
    - A Python [str] is a Rocq [string]; a character stands for the code
      point of the same number (the embedding covers code points below
      256, which is where every character the program inspects lives).
    - The three collaborators that are not part of the program
      ([packaging.requirements.Requirement], [importlib.metadata.version],
      [requests.get]) and the behaviour of the disk are variables of the
      section [Program]; each either returns a value or raises.
    - Effects are explicit: a computation maps a [world] (the files and the
      records handed to the log stream) to a [result] and a new [world]. *)

From Stdlib Require Import String Ascii ZArith List Lia.
From stdpp Require Import base option list strings gmap pretty.

Local Open Scope string_scope.
Local Open Scope Z_scope.

(* stdpp freezes the concatenation of strings under [simpl]; the texts
   below are built with it and need it to compute. *)
Local Arguments String.append !s1 s2 : simpl nomatch.

(** ** Python strings *)

Definition LF : ascii := Ascii.ascii_of_nat 10.
Definition CR : ascii := Ascii.ascii_of_nat 13.

(** The line feed as a text. *)
Definition NL : string := String LF EmptyString.

(** [str.isspace] on one character, for code points below 256: the
    controls 0x09-0x0D and 0x1C-0x1F, the space, NEL (0x85) and the
    no-break space (0xA0). *)
Definition isspace (c : ascii) : bool :=
  let n := Ascii.N_of_ascii c in
  ((9 <=? n) && (n <=? 13) || (28 <=? n) && (n <=? 32)
   || (n =? 133) || (n =? 160))%N.

(** [s.lstrip(chars)] and [s.rstrip(chars)], the set [chars] given as a
    predicate. *)
Fixpoint lstrip (p : ascii -> bool) (s : string) : string :=
  match s with
  | EmptyString => EmptyString
  | String c s' => if p c then lstrip p s' else s
  end.

Fixpoint rstrip (p : ascii -> bool) (s : string) : string :=
  match s with
  | EmptyString => EmptyString
  | String c s' =>
      match rstrip p s' with
      | EmptyString => if p c then EmptyString else String c EmptyString
      | t => String c t
      end
  end.

(** [s.strip()] *)
Definition strip (s : string) : string := rstrip isspace (lstrip isspace s).

(** [s.rstrip('\n')] *)
Definition rstrip_newline (s : string) : string := rstrip (Ascii.eqb LF) s.

(** [s.startswith(prefix)] *)
Definition startswith (s pre : string) : bool := String.prefix pre s.

(** [sep.join(parts)] *)
Fixpoint join (sep : string) (parts : list string) : string :=
  match parts with
  | [] => ""
  | [p] => p
  | p :: ps => p +:+ sep +:+ join sep ps
  end.

(** Truthiness of a [str]: the empty string is false. *)
Definition str_truthy (s : string) : bool :=
  match s with EmptyString => false | _ => true end.

(** ** Text files

    [open(path, "r")] reads with universal newlines: a carriage return,
    alone or followed by a line feed, reaches the program as one line
    feed. *)
Fixpoint universal_newlines (s : string) : string :=
  match s with
  | EmptyString => EmptyString
  | String c s' =>
      if Ascii.eqb c CR then
        match s' with
        | String d s'' =>
            if Ascii.eqb d LF then String LF (universal_newlines s'')
            else String LF (universal_newlines s')
        | EmptyString => String LF EmptyString
        end
      else String c (universal_newlines s')
  end.

(** [for line in file]: the text is cut after every line feed; each line
    keeps its line feed and the last one may lack it. *)
Fixpoint readlines (s : string) : list string :=
  match s with
  | EmptyString => []
  | String c s' =>
      if Ascii.eqb c LF then String c EmptyString :: readlines s'
      else match readlines s' with
           | [] => [String c EmptyString]
           | l :: ls => String c l :: ls
           end
  end.

(** ** Exceptions, results and the log stream *)

(** The classes of [Exception] the program can meet.  Exceptions outside
    [Exception] (an interrupt, an exit request) are not part of normal
    operation and are not modelled. *)
Inductive exc_class :=
  | PackageNotFoundError | InvalidRequirement | KeyError | TypeError
  | JSONDecodeError | RequestException | FileNotFoundError | OSError
  | UnicodeError.

(** An exception: its class and the text [str(e)] gives. *)
Record exception := { exc_type : exc_class; exc_str : string }.

Inductive result (A : Type) :=
  | Return (a : A)
  | Raise (e : exception).
Arguments Return {A} a.
Arguments Raise {A} e.

Definition is_PackageNotFoundError (e : exception) : bool :=
  match exc_type e with PackageNotFoundError => true | _ => false end.

Inductive level := DEBUG | INFO | WARNING | ERROR.

Definition levelno (l : level) : Z :=
  match l with DEBUG => 10 | INFO => 20 | WARNING => 30 | ERROR => 40 end.

Record log_record := { levelname : level; message : string }.

(** ** The world and its computations *)

Record world := {
  files : gmap string string;   (* path to text *)
  log : list log_record         (* records emitted so far, oldest first *)
}.

Definition M (A : Type) : Type := world -> result A * world.

Definition ret {A} (a : A) : M A := fun w => (Return a, w).

Definition raise {A} (e : exception) : M A := fun w => (Raise e, w).

Definition bind {A B} (m : M A) (k : A -> M B) : M B :=
  fun w =>
    match m w with
    | (Return a, w') => k a w'
    | (Raise e, w') => (Raise e, w')
    end.

(** [try: body / except Exception as e: handler e] *)
Definition try_except {A} (body : M A) (handler : exception -> M A) : M A :=
  fun w =>
    match body w with
    | (Return a, w') => (Return a, w')
    | (Raise e, w') => handler e w'
    end.

(** A call of a collaborator, which reads the world but leaves it as it is. *)
Definition call {A} (r : result A) : M A := fun w => (r, w).

Declare Scope prog_scope.
Delimit Scope prog_scope with prog.
Notation "x <- c1 ;; c2" := (bind c1 (fun x => c2))
  (at level 100, c1 at next level, c2 at level 200, right associativity)
  : prog_scope.
Notation "c1 ;;; c2" := (bind c1 (fun _ => c2))
  (at level 100, c2 at level 200, right associativity) : prog_scope.
Local Open Scope prog_scope.

(** [logging.basicConfig(level=logging.INFO)]: the root logger emits the
    records at INFO and above and drops the others. *)
Definition root_level : level := INFO.

Definition emit (l : level) (msg : string) (w : world) : world :=
  if levelno root_level <=? levelno l
  then {| files := files w; log := log w ++ [{| levelname := l; message := msg |}] |}
  else w.

Definition logging (l : level) (msg : string) : M unit :=
  fun w => (Return tt, emit l msg w).

(** ** Decoded JSON *)

#[warnings="-register-all"]
Inductive json :=
  | JNull
  | JBool (b : bool)
  | JInt (n : Z)
  | JStr (s : string)
  | JArr (items : list json)
  | JObj (members : list (string * json)).

(** Truthiness of a decoded value, as [if value:] tests it. *)
Definition truthy (v : json) : bool :=
  match v with
  | JNull => false
  | JBool b => b
  | JInt n => negb (n =? 0)
  | JStr s => str_truthy s
  | JArr items => match items with [] => false | _ => true end
  | JObj members => match members with [] => false | _ => true end
  end.

Fixpoint dict_get (members : list (string * json)) (key : string) : option json :=
  match members with
  | [] => None
  | (k, v) :: rest => if String.eqb k key then Some v else dict_get rest key
  end.

(** [value[key]] with a string key. *)
Definition getitem (v : json) (key : string) : result json :=
  match v with
  | JObj members =>
      match dict_get members key with
      | Some x => Return x
      | None => Raise {| exc_type := KeyError; exc_str := "'" +:+ key +:+ "'" |}
      end
  | JArr _ =>
      Raise {| exc_type := TypeError;
               exc_str := "list indices must be integers or slices, not str" |}
  | JStr _ =>
      Raise {| exc_type := TypeError;
               exc_str := "string indices must be integers, not 'str'" |}
  | JNull | JBool _ | JInt _ =>
      Raise {| exc_type := TypeError; exc_str := "object is not subscriptable" |}
  end.

(** The answer of [requests.get]: the status and what [response.json()]
    gives (it raises when the body is not JSON). *)
Record response := { status_code : Z; json_body : result json }.

(** ** Parsed requirements *)

(** The attributes of a [Requirement] the program reads.  [extras] lists
    the set in its iteration order; [specifier] lists the clauses of the
    specifier set as operator and version; [marker] holds [str(marker)];
    [url] is [None] or the reference. *)
Record requirement := {
  name : string;
  extras : list string;
  specifier : list (string * string);
  marker : option string;
  url : option string
}.

(** An optional string as a value: [None] or the string. *)
Definition py_opt (o : option string) : json :=
  match o with Some s => JStr s | None => JNull end.

(** Truthiness of a set or of a specifier set: empty is false. *)
Definition nonempty {A} (l : list A) : bool :=
  match l with [] => false | _ => true end.

(** What opening a path for writing and writing [data] to it comes to. *)
Inductive write_outcome :=
  | Written                                  (* the file holds [data] *)
  | OpenFailed (e : exception)               (* the file is as it was *)
  | WriteFailed (e : exception) (kept : nat). (* truncated, then only the
                                                first [kept] characters *)

(** ** The vocabulary of the properties *)

(** The pinned form of a line, in the words of the specification: the
    name, the extras in brackets and joined by commas when there are any,
    the operator [==] with nothing around it, the version, and the marker
    after a semicolon and one space when there is one. *)
Definition pinned_form (nm : string) (ex : list string) (v : string)
    (mk : option string) : string :=
  nm +:+ match ex with [] => "" | _ => "[" +:+ join "," ex +:+ "]" end
     +:+ "==" +:+ v
     +:+ match mk with Some m => "; " +:+ m | None => "" end.

(** A text made of whitespace only. *)
Fixpoint all_space (s : string) : bool :=
  match s with
  | EmptyString => true
  | String c s' => isspace c && all_space s'
  end.

(** A text with a line feed added at its end when it is not empty and
    does not end in one. *)
Fixpoint with_final_newline (s : string) : string :=
  match s with
  | EmptyString => EmptyString
  | String c EmptyString => if Ascii.eqb c LF then s else String c NL
  | String c s' => String c (with_final_newline s')
  end.

(** The world with further records on its log. *)
Definition append_log (w : world) (recs : list log_record) : world :=
  {| files := files w; log := log w ++ recs |}.

(** A text in which the character [x] does not occur. *)
Fixpoint lacks (x : ascii) (s : string) : bool :=
  match s with
  | EmptyString => true
  | String c s' => negb (Ascii.eqb c x) && lacks x s'
  end.

(** A text that holds neither a line feed nor a carriage return. *)
Definition single_line (s : string) : bool := lacks LF s && lacks CR s.

Definition empty_world : world := {| files := ∅; log := [] |}.

(** ** A sample environment

    Concrete collaborators on which the program can be run: a parser that
    knows a handful of lines, a local registry with three packages, and a
    remote index with three. *)
Module Sample.

Definition DQ : string := String (Ascii.ascii_of_nat 34) EmptyString.

Definition plain (nm : string) : requirement :=
  {| name := nm; extras := []; specifier := []; marker := None; url := None |}.

Definition req_rich : requirement :=
  {| name := "rich"; extras := ["jupyter"; "docs"]; specifier := [];
     marker := Some ("python_version > " +:+ DQ +:+ "3.8" +:+ DQ);
     url := None |}.

Definition req_flask : requirement :=
  {| name := "flask"; extras := ["async"]; specifier := [(">=", "2.0")];
     marker := None; url := None |}.

Definition req_mylib : requirement :=
  {| name := "mylib"; extras := []; specifier := []; marker := None;
     url := Some "git+https://example.com/mylib.git" |}.

Definition req_numpy_pinned : requirement :=
  {| name := "numpy"; extras := []; specifier := [("==", "1.26.4")];
     marker := None; url := None |}.

Definition Requirement (line : string) : result requirement :=
  if String.eqb line "numpy" then Return (plain "numpy")
  else if String.eqb line "  numpy " then Return (plain "numpy")
  else if String.eqb line "numpy==1.26.4" then Return req_numpy_pinned
  else if String.eqb line "rich[jupyter,docs];python_version>'3.8'"
    then Return req_rich
  else if String.eqb line "flask[async]>=2.0" then Return req_flask
  else if String.eqb line "mylib @ git+https://example.com/mylib.git"
    then Return req_mylib
  else if String.eqb line "requests" then Return (plain "requests")
  else if String.eqb line "leftpad" then Return (plain "leftpad")
  else if String.eqb line "six" then Return (plain "six")
  else if String.eqb line "nover" then Return (plain "nover")
  else if String.eqb line "broken" then Return (plain "broken")
  else Raise {| exc_type := InvalidRequirement;
                exc_str := "Expected package name at the start of dependency specifier" |}.

Definition version (nm : string) : result string :=
  if String.eqb nm "numpy" then Return "1.26.4"
  else if String.eqb nm "rich" then Return "13.7.1"
  else if String.eqb nm "flask" then Return "3.0.0"
  else if String.eqb nm "six" then Return ""
  else if String.eqb nm "broken"
    then Raise {| exc_type := OSError; exc_str := "[Errno 13] Permission denied" |}
  else Raise {| exc_type := PackageNotFoundError;
                exc_str := "No package metadata was found for " +:+ nm |}.

Definition info_version (v : string) : response :=
  {| status_code := 200;
     json_body := Return (JObj [("info", JObj [("version", JStr v)])]) |}.

Definition get (u : string) : result response :=
  if String.eqb u "https://pypi.org/pypi/requests/json"
    then Return (info_version "2.32.3")
  else if String.eqb u "https://pypi.org/pypi/six/json"
    then Return (info_version "1.16.0")
  else if String.eqb u "https://pypi.org/pypi/broken/json"
    then Return (info_version "0.1")
  else if String.eqb u "https://pypi.org/pypi/nover/json"
    then Return (info_version "")
  else if String.eqb u "https://pypi.org/pypi/offline/json"
    then Raise {| exc_type := RequestException; exc_str := "Connection refused" |}
  else Return {| status_code := 404;
                 json_body := Raise {| exc_type := JSONDecodeError;
                                       exc_str := "Expecting value" |} |}.

Definition str (v : json) : string :=
  match v with
  | JNull => "None"
  | JBool true => "True"
  | JBool false => "False"
  | JInt n => pretty n
  | JStr s => s
  | JArr _ => "[...]"
  | JObj _ => "{...}"
  end.

Definition read_fault (path : string) : option (nat * exception) :=
  if String.eqb path "unreadable.txt"
  then Some (1%nat, {| exc_type := UnicodeError;
                       exc_str := "'utf-8' codec can't decode byte 0xff" |})
  else None.

Definition write_result (path data : string) : write_outcome := Written.

Definition text : string :=
  "# pinned manually" +:+ NL +:+ "numpy" +:+ NL +:+ "flask[async]>=2.0" +:+ NL
  +:+ NL +:+ "rich[jupyter,docs];python_version>'3.8'" +:+ String CR NL
  +:+ "mylib @ git+https://example.com/mylib.git" +:+ NL +:+ "requests" +:+ NL
  +:+ "-r other.txt" +:+ NL +:+ "leftpad".

Definition world_with (path content : string) : world :=
  {| files := {[ path := content ]}; log := [] |}.

(** The sign of a rebuilt line: two consecutive equals signs. *)
Fixpoint contains_eqeq (s : string) : bool :=
  match s with
  | EmptyString => false
  | String c s' =>
      (Ascii.eqb c "=" &&
       match s' with String d _ => Ascii.eqb d "=" | EmptyString => false end)
      || contains_eqeq s'
  end.

End Sample.

(** ** The program *)

Section Program.

(** [packaging.requirements.Requirement(line)] *)
Variable Requirement : string -> result requirement.
(** [importlib.metadata.version(name)] *)
Variable importlib_metadata_version : string -> result string.
(** [requests.get(url)] *)
Variable requests_get : string -> result response.
(** [str(value)], used when a decoded value that is not a string is
    formatted into a line. *)
Variable py_str : json -> string.
(** Reading [path] fails with this exception once this many lines have
    been handed out (none: a failure of [open] itself). *)
Variable read_fault : string -> option (nat * exception).
(** The outcome of writing this text to [path]. *)
Variable write_result : string -> string -> write_outcome.

(** [f"{value}"] *)
Definition format (v : json) : string :=
  match v with JStr s => s | _ => py_str v end.

Definition get_installed_version (package_name : string) : M (option string) :=
  try_except
    (v <- call (importlib_metadata_version package_name) ;;
     ret (Some v))
    (fun e =>
       if is_PackageNotFoundError e then
         logging DEBUG ("Package '" +:+ package_name +:+ "' is not installed.") ;;;
         ret None
       else
         logging ERROR ("Error getting installed version for '" +:+ package_name
                        +:+ "': " +:+ exc_str e) ;;;
         ret None).

(** The result is a decoded value; [JNull] stands for [None]. *)
Definition get_latest_version_from_pypi (package_name : string) : M json :=
  let url := "https://pypi.org/pypi/" +:+ package_name +:+ "/json" in
  try_except
    (response <- call (requests_get url) ;;
     if status_code response =? 200 then
       data <- call (json_body response) ;;
       info <- call (getitem data "info") ;;
       latest_version <- call (getitem info "version") ;;
       ret latest_version
     else
       logging WARNING ("Failed to get latest version for '" +:+ package_name
                        +:+ "' from PyPI. Status code: "
                        +:+ pretty (status_code response)) ;;;
       ret JNull)
    (fun e =>
       logging ERROR ("Error fetching latest version from PyPI for '"
                      +:+ package_name +:+ "': " +:+ exc_str e) ;;;
       ret JNull).

(** Lines 124-133: the line rebuilt from the parsed fields. *)
Definition reconstruct (req : requirement) (operator : option string)
    (version : json) : string :=
  let updated_req_str := name req in
  let updated_req_str :=
    if nonempty (extras req)
    then updated_req_str +:+ ("[" +:+ join "," (extras req) +:+ "]")
    else updated_req_str in
  let updated_req_str :=
    match operator with
    | Some op =>
        if str_truthy op && truthy version
        then updated_req_str +:+ (op +:+ format version)
        else updated_req_str
    | None => updated_req_str
    end in
  match marker req with
  | Some markers => updated_req_str +:+ ("; " +:+ markers)
  | None => updated_req_str
  end.

(** The first test of the loop body: a blank line or a comment. *)
Definition is_blank_or_comment (package_line : string) : bool :=
  negb (str_truthy (strip package_line)) || startswith (strip package_line) "#".

(** The body of the loop over the lines (lines 67-133); the result is
    the string it appends to [updated_lines]. *)
Definition process_line (line : string) : M string :=
  let package_line := rstrip_newline line in
  if is_blank_or_comment package_line then ret package_line
  else
    parsed <- try_except
                (req <- call (Requirement package_line) ;; ret (Some req))
                (fun e =>
                   logging WARNING ("Could not parse the line: '" +:+ package_line
                                    +:+ "'. Error: " +:+ exc_str e) ;;;
                   ret None) ;;
    match parsed with
    | None => ret package_line
    | Some req =>
        if truthy (py_opt (url req)) then ret package_line
        else
          let package_name_for_lookup := name req in
          installed_version <- get_installed_version package_name_for_lookup ;;
          if truthy (py_opt installed_version) then
            if negb (nonempty (specifier req)) then
              ret (reconstruct req (Some "==") (py_opt installed_version))
            else ret package_line
          else
            if negb (nonempty (specifier req)) then
              latest_version <- get_latest_version_from_pypi package_name_for_lookup ;;
              if truthy latest_version then
                ret (reconstruct req (Some "==") latest_version)
              else
                logging WARNING ("Could not find '" +:+ package_name_for_lookup
                                 +:+ "' on PyPI.") ;;;
                ret package_line
            else ret package_line
    end.

(** [open(path, "r")] and the iteration over the file: the lines that
    are handed out and the exception, if any, that ends the iteration. *)
Definition open_read (path : string) : M (list string * option exception) :=
  fun w =>
    match files w !! path with
    | None =>
        (Raise {| exc_type := FileNotFoundError;
                  exc_str := "[Errno 2] No such file or directory: '" +:+ path +:+ "'" |},
         w)
    | Some text =>
        let lines := readlines (universal_newlines text) in
        match read_fault path with
        | None => (Return (lines, None), w)
        | Some (n, e) => (Return (take n lines, Some e), w)
        end
    end.

Fixpoint for_each_line (lines : list string) (fault : option exception)
    (updated_lines : list string) : M (list string) :=
  match lines with
  | [] =>
      match fault with
      | None => ret updated_lines
      | Some e => raise e
      end
  | line :: rest =>
      out <- process_line line ;;
      for_each_line rest fault (updated_lines ++ [out])
  end.

(** [open(path, "w")] and [file.write(data)]. *)
Definition write_file (path data : string) : M unit :=
  fun w =>
    match write_result path data with
    | Written =>
        (Return tt, {| files := <[path := data]> (files w); log := log w |})
    | OpenFailed e => (Raise e, w)
    | WriteFailed e kept =>
        (Raise e,
         {| files := <[path := String.substring 0 kept data]> (files w);
            log := log w |})
    end.

Definition update_requirements_file (requirements_file : string) : M unit :=
  read <- try_except
            (opened <- open_read requirements_file ;;
             updated_lines <- for_each_line (fst opened) (snd opened) [] ;;
             ret (Some updated_lines))
            (fun e =>
               logging ERROR ("Error processing requirements file: " +:+ exc_str e) ;;;
               ret None) ;;
  match read with
  | None => ret tt
  | Some updated_lines =>
      try_except
        (write_file requirements_file (join NL updated_lines +:+ NL))
        (fun e =>
           logging ERROR ("Error writing to requirements file: " +:+ exc_str e))
  end.

(** Lines 145-147: the script run as a program. *)
Definition main : M unit := update_requirements_file "requirements.txt".


(** What the loop body appends for a line and what it logs: the run of
    the body in a world with an empty log. *)
Definition output_of (line : string) : string :=
  match fst (process_line line empty_world) with
  | Return out => out
  | Raise _ => rstrip_newline line
  end.

Definition records_of (line : string) : list log_record :=
  log (snd (process_line line empty_world)).

(** The lines the specification calls pass-through: blank, comment,
    rejected by the parser, with a URL, or with a specifier. *)
Definition pass_through (package_line : string) : Prop :=
  strip package_line = ""
  \/ startswith (strip package_line) "#" = true
  \/ (exists e, Requirement package_line = Raise e)
  \/ (exists req, Requirement package_line = Return req
                  /\ (truthy (py_opt (url req)) = true \/ specifier req <> [])).

(** The lines that are candidates for pinning: not blank, not a
    comment, accepted by the parser as [req], without URL and without
    specifier. *)
Definition candidate (package_line : string) (req : requirement) : Prop :=
  is_blank_or_comment package_line = false
  /\ Requirement package_line = Return req
  /\ truthy (py_opt (url req)) = false
  /\ specifier req = [].

(** The local registry has no usable version for the name: the query
    raises, or it returns an empty string. *)
Definition not_installed (nm : string) : Prop :=
  (exists e, importlib_metadata_version nm = Raise e)
  \/ importlib_metadata_version nm = Return "".

(** The remote index reports the value [v] for the name: status 200 and
    a body that decodes to an object with [info.version = v]. *)
Definition remote_reports (nm : string) (v : json) : Prop :=
  exists resp data info,
    requests_get ("https://pypi.org/pypi/" +:+ nm +:+ "/json") = Return resp
    /\ status_code resp = 200
    /\ json_body resp = Return data
    /\ getitem data "info" = Return info
    /\ getitem info "version" = Return v.

(** Where the version of a pinned line comes from: the local registry,
    or the remote index when the local registry has none. *)
Definition pin_source (req : requirement) (v : json) : Prop :=
  (exists V, importlib_metadata_version (name req) = Return V
             /\ V <> "" /\ v = JStr V)
  \/ (not_installed (name req) /\ remote_reports (name req) v
      /\ truthy v = true).

(** The remote query raises [e]: in the request, in decoding the body,
    or in reading [info] or [version] from the decoded value. *)
Definition remote_raises (nm : string) (e : exception) : Prop :=
  let u := "https://pypi.org/pypi/" +:+ nm +:+ "/json" in
  requests_get u = Raise e
  \/ exists resp,
       requests_get u = Return resp /\ status_code resp = 200
       /\ (json_body resp = Raise e
           \/ exists data,
                json_body resp = Return data
                /\ (getitem data "info" = Raise e
                    \/ exists info,
                         getitem data "info" = Return info
                         /\ getitem info "version" = Raise e)).

(** The remote index answers with a status other than 200. *)
Definition remote_status (nm : string) (code : Z) : Prop :=
  exists resp,
    requests_get ("https://pypi.org/pypi/" +:+ nm +:+ "/json") = Return resp
    /\ status_code resp = code /\ code <> 200.

(** The remote lookup yields no version: a status other than 200, or an
    exception (transport, decoding, missing field). *)
Definition remote_fails (nm : string) : Prop :=
  (exists code, remote_status nm code) \/ (exists e, remote_raises nm e).

(** The text the write phase hands to the file for a file that held
    [text]. *)
Definition transform (text : string) : string :=
  join NL (map output_of (readlines (universal_newlines text))) +:+ NL.

(** What the idempotence of the transform asks of the collaborators:
    the parser gives one-line fields and, on a line this program has
    rebuilt with [==], either rejects it or finds a URL or a specifier
    in it; the versions the registries report are one-line texts. *)
Record collaborators_ok : Prop := {
  parsed_single_line : forall l req,
    Requirement l = Return req ->
    single_line (name req) = true
    /\ Forall (fun x => single_line x = true) (extras req)
    /\ (forall m, marker req = Some m -> single_line m = true);
  reparse_pinned : forall l req v req',
    Requirement l = Return req -> truthy v = true ->
    Requirement (reconstruct req (Some "==") v) = Return req' ->
    truthy (py_opt (url req')) = true \/ specifier req' <> [];
  installed_single_line : forall nm v,
    importlib_metadata_version nm = Return v -> single_line v = true;
  remote_single_line : forall nm v,
    remote_reports nm v -> single_line (format v) = true
}.

(** A computation that returns and only adds records to the log, the
    same ones in every world; [steady] also admits one that raises. *)
Definition steady {A} (m : M A) : Prop :=
  exists r recs, forall w, m w = (r, append_log w recs).

Definition logs_only {A} (m : M A) : Prop :=
  exists a recs, forall w, m w = (Return a, append_log w recs).

(** ** Strings *)

Lemma append_assoc (a b c : string) : (a +:+ b) +:+ c = a +:+ (b +:+ c).
Proof. induction a as [|x a IH]; simpl; [reflexivity | f_equal; exact IH]. Qed.

Lemma append_empty_r (a : string) : a +:+ "" = a.
Proof. induction a as [|x a IH]; simpl; [reflexivity | f_equal; exact IH]. Qed.


(** ** Computations that only log *)

Lemma append_log_nil w : append_log w [] = w.
Proof. destruct w as [f l]. unfold append_log. simpl. now rewrite app_nil_r. Qed.

Lemma append_log_app w r1 r2 :
  append_log (append_log w r1) r2 = append_log w (r1 ++ r2)%list.
Proof. unfold append_log. simpl. now rewrite app_assoc. Qed.

Lemma emit_append_log l msg w :
  emit l msg w =
  append_log w (if levelno root_level <=? levelno l
                then [{| levelname := l; message := msg |}] else []).
Proof.
  unfold emit. destruct (levelno root_level <=? levelno l).
  - reflexivity.
  - now rewrite append_log_nil.
Qed.

Lemma logs_only_steady {A} (m : M A) : logs_only m -> steady m.
Proof. intros [a [recs H]]. exists (Return a), recs. exact H. Qed.

Lemma steady_ret {A} (a : A) : steady (ret a).
Proof. exists (Return a), []. intros w. unfold ret. now rewrite append_log_nil. Qed.

Lemma steady_call {A} (r : result A) : steady (call r).
Proof. exists r, []. intros w. unfold call. now rewrite append_log_nil. Qed.

Lemma steady_bind {A B} (m : M A) (k : A -> M B) :
  steady m -> (forall a, steady (k a)) -> steady (bind m k).
Proof.
  intros [r [recs Hm]] Hk. destruct r as [a|e].
  - destruct (Hk a) as [r' [recs' Hk']].
    exists r', (recs ++ recs')%list. intros w. unfold bind.
    rewrite Hm, Hk'. now rewrite append_log_app.
  - exists (Raise e), recs. intros w. unfold bind. now rewrite Hm.
Qed.

Lemma logs_only_ret {A} (a : A) : logs_only (ret a).
Proof. exists a, []. intros w. unfold ret. now rewrite append_log_nil. Qed.

Lemma logs_only_logging l msg : logs_only (logging l msg).
Proof.
  exists tt. eexists. intros w. unfold logging. rewrite emit_append_log.
  reflexivity.
Qed.

Lemma logs_only_bind {A B} (m : M A) (k : A -> M B) :
  logs_only m -> (forall a, logs_only (k a)) -> logs_only (bind m k).
Proof.
  intros [a [recs Hm]] Hk. destruct (Hk a) as [b [recs' Hk']].
  exists b, (recs ++ recs')%list. intros w. unfold bind.
  rewrite Hm, Hk'. now rewrite append_log_app.
Qed.

Lemma logs_only_try {A} (body : M A) (handler : exception -> M A) :
  steady body -> (forall e, logs_only (handler e)) ->
  logs_only (try_except body handler).
Proof.
  intros [r [recs Hb]] Hh. destruct r as [a|e].
  - exists a, recs. intros w. unfold try_except. now rewrite Hb.
  - destruct (Hh e) as [a [recs' Hh']].
    exists a, (recs ++ recs')%list. intros w. unfold try_except.
    rewrite Hb, Hh'. now rewrite append_log_app.
Qed.

Ltac logs_only_step :=
  first
    [ apply logs_only_ret
    | apply logs_only_logging
    | apply logs_only_bind; [ | intros ? ]
    | apply logs_only_try; [ | intros ? ]
    | apply steady_bind; [ | intros ? ]
    | apply steady_call
    | apply steady_ret
    | apply logs_only_steady ].

Lemma get_installed_version_logs_only nm : logs_only (get_installed_version nm).
Proof.
  unfold get_installed_version.
  apply logs_only_try; [ repeat logs_only_step | intros e ].
  destruct (is_PackageNotFoundError e); repeat logs_only_step.
Qed.

Lemma get_latest_version_from_pypi_logs_only nm :
  logs_only (get_latest_version_from_pypi nm).
Proof.
  unfold get_latest_version_from_pypi.
  apply logs_only_try; [ | intros e; repeat logs_only_step ].
  apply steady_bind; [ apply steady_call | intros resp ].
  destruct (status_code resp =? 200); repeat logs_only_step.
Qed.

Lemma process_line_logs_only line : logs_only (process_line line).
Proof.
  unfold process_line.
  destruct (is_blank_or_comment (rstrip_newline line)); [ apply logs_only_ret | ].
  apply logs_only_bind; [ repeat logs_only_step | intros [req|] ];
    [ | apply logs_only_ret ].
  destruct (truthy (py_opt (url req))); [ apply logs_only_ret | ].
  apply logs_only_bind; [ apply get_installed_version_logs_only | intros iv ].
  destruct (truthy (py_opt iv)), (negb (nonempty (specifier req)));
    try apply logs_only_ret.
  apply logs_only_bind; [ apply get_latest_version_from_pypi_logs_only | intros lv ].
  destruct (truthy lv); repeat logs_only_step.
Qed.

(** The loop body returns in every world, leaves the files alone and
    logs the same records whatever the world. *)
Lemma process_line_spec line w :
  process_line line w = (Return (output_of line), append_log w (records_of line)).
Proof.
  destruct (process_line_logs_only line) as [a [recs H]].
  unfold output_of, records_of. rewrite !H. reflexivity.
Qed.


(** ** The two lookups *)

Lemma get_installed_version_found nm v w :
  importlib_metadata_version nm = Return v ->
  get_installed_version nm w = (Return (Some v), w).
Proof.
  intros H. unfold get_installed_version, try_except, bind, call, ret.
  now rewrite H.
Qed.

Lemma get_installed_version_not_found nm e w :
  importlib_metadata_version nm = Raise e ->
  is_PackageNotFoundError e = true ->
  get_installed_version nm w = (Return None, w).
Proof.
  intros H Hc. unfold get_installed_version, try_except, bind, call, ret.
  rewrite H, Hc. reflexivity.
Qed.

Lemma get_installed_version_error nm e w :
  importlib_metadata_version nm = Raise e ->
  is_PackageNotFoundError e = false ->
  get_installed_version nm w =
  (Return None,
   append_log w [{| levelname := ERROR;
                    message := "Error getting installed version for '" +:+ nm
                               +:+ "': " +:+ exc_str e |}]).
Proof.
  intros H Hc. unfold get_installed_version, try_except, bind, call, ret.
  rewrite H, Hc. reflexivity.
Qed.

Lemma get_installed_version_raises nm e w :
  importlib_metadata_version nm = Raise e ->
  exists recs, get_installed_version nm w = (Return None, append_log w recs).
Proof.
  intros H. destruct (is_PackageNotFoundError e) eqn:Hc.
  - exists []. rewrite append_log_nil.
    now apply get_installed_version_not_found with e.
  - eexists. apply get_installed_version_error with (e := e); assumption.
Qed.

Lemma get_latest_version_reported nm v w :
  remote_reports nm v ->
  get_latest_version_from_pypi nm w = (Return v, w).
Proof.
  intros (resp & data & info & Hg & Hs & Hj & Hi & Hv).
  unfold get_latest_version_from_pypi, try_except, bind, call, ret.
  rewrite Hg, Hs. simpl. rewrite Hj, Hi, Hv. reflexivity.
Qed.

Lemma get_latest_version_status nm code w :
  remote_status nm code ->
  get_latest_version_from_pypi nm w =
  (Return JNull,
   append_log w [{| levelname := WARNING;
                    message := "Failed to get latest version for '" +:+ nm
                               +:+ "' from PyPI. Status code: " +:+ pretty code |}]).
Proof.
  intros (resp & Hg & Hs & Hc).
  unfold get_latest_version_from_pypi, try_except, bind, call, ret.
  rewrite Hg, Hs. apply Z.eqb_neq in Hc. rewrite Hc. reflexivity.
Qed.

Lemma get_latest_version_raises nm e w :
  remote_raises nm e ->
  get_latest_version_from_pypi nm w =
  (Return JNull,
   append_log w [{| levelname := ERROR;
                    message := "Error fetching latest version from PyPI for '"
                               +:+ nm +:+ "': " +:+ exc_str e |}]).
Proof.
  unfold remote_raises.
  intros [ Hg | (resp & Hg & Hs & [ Hj | (data & Hj & [ Hi | (info & Hi & Hv) ]) ]) ];
    unfold get_latest_version_from_pypi, try_except, bind, call, ret;
    rewrite Hg; try rewrite Hs; cbn [Z.eqb Pos.eqb];
    try rewrite Hj; try rewrite Hi; try rewrite Hv; reflexivity.
Qed.

Lemma get_latest_version_failed nm w :
  remote_fails nm ->
  exists lvl msg,
    (lvl = WARNING \/ lvl = ERROR)
    /\ get_latest_version_from_pypi nm w =
       (Return JNull, append_log w [{| levelname := lvl; message := msg |}]).
Proof.
  intros [[code Hc] | [e He]].
  - exists WARNING. eexists. split; [now left | ].
    apply get_latest_version_status. exact Hc.
  - exists ERROR. eexists. split; [now right | ].
    apply get_latest_version_raises. exact He.
Qed.

(** Every answer of the remote index is a report or a failure. *)
Lemma remote_reports_or_fails nm :
  (exists v, remote_reports nm v) \/ remote_fails nm.
Proof.
  unfold remote_reports, remote_fails, remote_status, remote_raises.
  destruct (requests_get ("https://pypi.org/pypi/" +:+ nm +:+ "/json"))
    as [resp|e] eqn:Hg; [ | right; right; eauto ].
  destruct (Z.eq_dec (status_code resp) 200) as [Hs|Hs];
    [ | right; left; eauto 10 ].
  destruct (json_body resp) as [data|e] eqn:Hj;
    [ | right; right; exists e; right; eauto 10 ].
  destruct (getitem data "info") as [info|e] eqn:Hi;
    [ | right; right; exists e; right; exists resp; eauto 10 ].
  destruct (getitem info "version") as [v|e] eqn:Hv.
  - left. eauto 10.
  - right; right; exists e; right; exists resp.
    split; [reflexivity | ]. split; [assumption | ].
    right. exists data. split; [assumption | ]. right. eauto.
Qed.

(** ** The rebuilt line *)

Lemma reconstruct_pinned_form req v :
  truthy v = true ->
  reconstruct req (Some "==") v =
  pinned_form (name req) (extras req) (format v) (marker req).
Proof.
  intros Hv. unfold reconstruct, pinned_form. rewrite Hv.
  cbn [str_truthy andb].
  destruct (extras req) as [|x xs], (marker req) as [m|];
    cbn [nonempty]; cbv iota;
    rewrite ?append_assoc, ?append_empty_r; reflexivity.
Qed.

(** ** The loop body, branch by branch *)

Lemma process_line_blank line w :
  is_blank_or_comment (rstrip_newline line) = true ->
  process_line line w = (Return (rstrip_newline line), w).
Proof. intros H. unfold process_line. now rewrite H. Qed.

Lemma process_line_unparseable line e w :
  is_blank_or_comment (rstrip_newline line) = false ->
  Requirement (rstrip_newline line) = Raise e ->
  process_line line w =
  (Return (rstrip_newline line),
   append_log w [{| levelname := WARNING;
                    message := "Could not parse the line: '" +:+ rstrip_newline line
                               +:+ "'. Error: " +:+ exc_str e |}]).
Proof.
  intros Hb Hp. unfold process_line, try_except, bind, call, ret.
  rewrite Hb, Hp. reflexivity.
Qed.

Lemma process_line_url line req w :
  is_blank_or_comment (rstrip_newline line) = false ->
  Requirement (rstrip_newline line) = Return req ->
  truthy (py_opt (url req)) = true ->
  process_line line w = (Return (rstrip_newline line), w).
Proof.
  intros Hb Hp Hu. unfold process_line, try_except, bind, call, ret.
  rewrite Hb, Hp, Hu. reflexivity.
Qed.

Lemma process_line_versioned line req w :
  is_blank_or_comment (rstrip_newline line) = false ->
  Requirement (rstrip_newline line) = Return req ->
  truthy (py_opt (url req)) = false ->
  specifier req <> [] ->
  exists recs,
    process_line line w = (Return (rstrip_newline line), append_log w recs).
Proof.
  intros Hb Hp Hu Hs.
  destruct (get_installed_version_logs_only (name req)) as [iv [recs Hiv]].
  exists recs. unfold process_line, try_except, bind, call, ret.
  rewrite Hb, Hp, Hu. unfold bind in Hiv |- *. rewrite Hiv.
  destruct (specifier req) as [|c cs]; [congruence | ].
  simpl. now destruct (truthy (py_opt iv)).
Qed.

(** An unversioned line without URL: the body comes down to the two
    lookups and the choice between them. *)
Lemma process_line_candidate line req w :
  is_blank_or_comment (rstrip_newline line) = false ->
  Requirement (rstrip_newline line) = Return req ->
  truthy (py_opt (url req)) = false ->
  specifier req = [] ->
  process_line line w =
  (installed_version <- get_installed_version (name req) ;;
   if truthy (py_opt installed_version)
   then ret (reconstruct req (Some "==") (py_opt installed_version))
   else
     latest_version <- get_latest_version_from_pypi (name req) ;;
     if truthy latest_version
     then ret (reconstruct req (Some "==") latest_version)
     else
       logging WARNING ("Could not find '" +:+ name req +:+ "' on PyPI.") ;;;
       ret (rstrip_newline line)) w.
Proof.
  intros Hb Hp Hu Hs. unfold process_line.
  rewrite Hb. unfold try_except at 1. unfold bind at 1 2. unfold call at 1.
  rewrite Hp. unfold ret at 1. rewrite Hu, Hs. reflexivity.
Qed.

Lemma str_truthy_true v : v <> "" -> str_truthy v = true.
Proof. destruct v; [congruence | reflexivity]. Qed.

Lemma process_line_installed line req V w :
  is_blank_or_comment (rstrip_newline line) = false ->
  Requirement (rstrip_newline line) = Return req ->
  truthy (py_opt (url req)) = false ->
  specifier req = [] ->
  importlib_metadata_version (name req) = Return V -> V <> "" ->
  process_line line w = (Return (reconstruct req (Some "==") (JStr V)), w).
Proof.
  intros Hb Hp Hu Hs Hi HV.
  rewrite (process_line_candidate line req w Hb Hp Hu Hs).
  unfold bind at 1. rewrite (get_installed_version_found _ _ _ Hi).
  simpl. now rewrite (str_truthy_true V HV).
Qed.

(** With no usable local version the body goes on to the remote index. *)
Lemma process_line_goes_remote line req w :
  is_blank_or_comment (rstrip_newline line) = false ->
  Requirement (rstrip_newline line) = Return req ->
  truthy (py_opt (url req)) = false ->
  specifier req = [] ->
  not_installed (name req) ->
  exists recs,
    process_line line w =
    (latest_version <- get_latest_version_from_pypi (name req) ;;
     if truthy latest_version
     then ret (reconstruct req (Some "==") latest_version)
     else
       logging WARNING ("Could not find '" +:+ name req +:+ "' on PyPI.") ;;;
       ret (rstrip_newline line)) (append_log w recs).
Proof.
  intros Hb Hp Hu Hs Hn.
  rewrite (process_line_candidate line req w Hb Hp Hu Hs).
  destruct Hn as [[e He] | He].
  - destruct (get_installed_version_raises _ _ w He) as [recs Hr].
    exists recs. unfold bind at 1. rewrite Hr. reflexivity.
  - exists []. rewrite append_log_nil.
    unfold bind at 1. rewrite (get_installed_version_found _ _ _ He).
    reflexivity.
Qed.

Lemma process_line_remote line req v w :
  is_blank_or_comment (rstrip_newline line) = false ->
  Requirement (rstrip_newline line) = Return req ->
  truthy (py_opt (url req)) = false ->
  specifier req = [] ->
  not_installed (name req) ->
  remote_reports (name req) v -> truthy v = true ->
  exists recs,
    process_line line w =
    (Return (reconstruct req (Some "==") v), append_log w recs).
Proof.
  intros Hb Hp Hu Hs Hn Hr Hv.
  destruct (process_line_goes_remote line req w Hb Hp Hu Hs Hn) as [recs H].
  exists recs. rewrite H. unfold bind.
  rewrite (get_latest_version_reported _ _ _ Hr), Hv. reflexivity.
Qed.

Definition could_not_find (nm : string) : log_record :=
  {| levelname := WARNING;
     message := "Could not find '" +:+ nm +:+ "' on PyPI." |}.

Lemma process_line_unresolved line req w :
  is_blank_or_comment (rstrip_newline line) = false ->
  Requirement (rstrip_newline line) = Return req ->
  truthy (py_opt (url req)) = false ->
  specifier req = [] ->
  not_installed (name req) ->
  remote_fails (name req)
  \/ (exists v, remote_reports (name req) v /\ truthy v = false) ->
  exists recs,
    process_line line w =
    (Return (rstrip_newline line),
     append_log w (recs ++ [could_not_find (name req)])).
Proof.
  intros Hb Hp Hu Hs Hn Hr.
  destruct (process_line_goes_remote line req w Hb Hp Hu Hs Hn) as [recs H].
  rewrite H. unfold bind.
  destruct Hr as [Hf | (v & Hr & Hv)].
  - destruct (get_latest_version_failed _ (append_log w recs) Hf)
      as (lvl & msg & _ & Hl).
    rewrite Hl. simpl.
    exists (recs ++ [{| levelname := lvl; message := msg |}])%list.
    unfold logging, ret. rewrite emit_append_log. simpl.
    rewrite !append_log_app, <- !app_assoc. reflexivity.
  - rewrite (get_latest_version_reported _ _ _ Hr), Hv.
    exists recs. unfold logging, ret. rewrite emit_append_log. simpl.
    rewrite !append_log_app. reflexivity.
Qed.


(** Every line is passed through or pinned from one of the two sources. *)
Lemma process_line_cases line w :
  exists out recs,
    process_line line w = (Return out, append_log w recs)
    /\ (out = rstrip_newline line
        \/ exists req v,
             candidate (rstrip_newline line) req /\ pin_source req v
             /\ out = reconstruct req (Some "==") v).
Proof.
  set (pl := rstrip_newline line).
  destruct (is_blank_or_comment pl) eqn:Hb.
  { exists pl, []. rewrite append_log_nil. split; [ | now left].
    exact (process_line_blank line w Hb). }
  destruct (Requirement pl) as [req|e] eqn:Hp.
  2:{ exists pl. eexists. split; [ | now left].
      exact (process_line_unparseable line e w Hb Hp). }
  destruct (truthy (py_opt (url req))) eqn:Hu.
  { exists pl, []. rewrite append_log_nil. split; [ | now left].
    exact (process_line_url line req w Hb Hp Hu). }
  destruct (specifier req) as [|c cs] eqn:Hs.
  2:{ destruct (process_line_versioned line req w Hb Hp Hu) as [recs H];
        [ rewrite Hs; discriminate | ].
      exists pl, recs. split; [exact H | now left]. }
  assert (Hcand : candidate pl req) by (repeat split; assumption).
  assert (Hloc : (exists V, importlib_metadata_version (name req) = Return V
                            /\ V <> "")
                 \/ not_installed (name req)).
  { unfold not_installed.
    destruct (importlib_metadata_version (name req)) as [V|e] eqn:Hi.
    - destruct V as [|c V]; [ right; now right | left ].
      exists (String c V). split; [reflexivity | discriminate].
    - right. left. now exists e. }
  destruct Hloc as [(V & Hi & HV) | Hn].
  { exists (reconstruct req (Some "==") (JStr V)), [].
    rewrite append_log_nil. split.
    - exact (process_line_installed line req V w Hb Hp Hu Hs Hi HV).
    - right. exists req, (JStr V). split; [exact Hcand | ].
      split; [ left; now exists V | reflexivity ]. }
  destruct (remote_reports_or_fails (name req)) as [[v Hr] | Hf].
  - destruct (truthy v) eqn:Hv.
    + destruct (process_line_remote line req v w Hb Hp Hu Hs Hn Hr Hv)
        as [recs H].
      exists (reconstruct req (Some "==") v), recs. split; [exact H | ].
      right. exists req, v. split; [exact Hcand | ].
      split; [ right; auto | reflexivity ].
    + destruct (process_line_unresolved line req w Hb Hp Hu Hs Hn) as [recs H].
      { right. now exists v. }
      exists pl. eexists. split; [exact H | now left].
  - destruct (process_line_unresolved line req w Hb Hp Hu Hs Hn) as [recs H].
    { now left. }
    exists pl. eexists. split; [exact H | now left].
Qed.

(** ** The claims on single lines *)

(** C1. An unversioned line without URL whose package is installed at
    version [V] becomes the name, the bracketed extras when there are
    any, [==], [V] and the marker after [; ] when there is one, and
    nothing is logged.  Whatever the line and the lookups, the output is
    the input line or such a pinned form: no operator but [==] is ever
    put into a line. *)
Theorem pins_installed_version_with_eq line w req V :
  candidate (rstrip_newline line) req ->
  importlib_metadata_version (name req) = Return V ->
  V <> "" ->
  process_line line w =
    (Return (pinned_form (name req) (extras req) V (marker req)), w)
  /\ (forall line' w',
        exists out w'',
          process_line line' w' = (Return out, w'')
          /\ (out = rstrip_newline line'
              \/ exists req' v,
                   Requirement (rstrip_newline line') = Return req'
                   /\ out = pinned_form (name req') (extras req') v (marker req'))).
Proof.
  intros (Hb & Hp & Hu & Hs) Hi HV. split.
  - rewrite (process_line_installed line req V w Hb Hp Hu Hs Hi HV).
    rewrite reconstruct_pinned_form; [reflexivity | ].
    now apply str_truthy_true.
  - intros line' w'.
    destruct (process_line_cases line' w') as (out & recs & H & Hc).
    exists out, (append_log w' recs). split; [exact H | ].
    destruct Hc as [Hc | (req' & v & (_ & Hp' & _) & Hsrc & Hout)];
      [ now left | right ].
    exists req', (format v). split; [exact Hp' | ].
    rewrite Hout. apply reconstruct_pinned_form.
    destruct Hsrc as [(V' & _ & HV' & ->) | (_ & _ & Hv)];
      [ now apply str_truthy_true | exact Hv ].
Qed.

(** C3. An unversioned line without URL whose package is not installed:
    when the remote index reports the version [W] the line becomes the
    pinned form with [W]; when the remote lookup yields no version (a
    status other than 200, a missing field, a transport or decoding
    error) the line is kept as it is and the warning that the package
    could not be found is logged. *)
Theorem pins_remote_version_or_keeps_line line w req :
  candidate (rstrip_newline line) req ->
  not_installed (name req) ->
  (forall W, W <> "" -> remote_reports (name req) (JStr W) ->
     exists recs,
       process_line line w =
       (Return (pinned_form (name req) (extras req) W (marker req)),
        append_log w recs))
  /\ (remote_fails (name req) ->
      exists recs,
        process_line line w =
        (Return (rstrip_newline line),
         append_log w
           (recs ++ [{| levelname := WARNING;
                        message := "Could not find '" +:+ name req
                                   +:+ "' on PyPI." |}]))).
Proof.
  intros (Hb & Hp & Hu & Hs) Hn. split.
  - intros W HW Hr.
    assert (Hv : truthy (JStr W) = true) by now apply str_truthy_true.
    destruct (process_line_remote line req _ w Hb Hp Hu Hs Hn Hr Hv) as [recs H].
    exists recs. rewrite H. rewrite reconstruct_pinned_form; [reflexivity | exact Hv].
  - intros Hf.
    destruct (process_line_unresolved line req w Hb Hp Hu Hs Hn) as [recs H];
      [ now left | ].
    exists recs. exact H.
Qed.


(** C8. A local lookup that ends in "not found" is silent: no version
    and no record.  Any other exception of the local lookup is logged as
    an error and also gives no version, so that the line goes on to the
    remote index and is pinned to what it reports.  An exception of the
    remote query is logged as an error and gives no version.  The loop
    body returns for every line, so that the following lines are
    processed. *)
Theorem lookups_fail_open nm w :
  (forall e, importlib_metadata_version nm = Raise e ->
     is_PackageNotFoundError e = true ->
     get_installed_version nm w = (Return None, w))
  /\ (forall e, importlib_metadata_version nm = Raise e ->
        is_PackageNotFoundError e = false ->
        get_installed_version nm w =
        (Return None,
         append_log w [{| levelname := ERROR;
                          message := "Error getting installed version for '"
                                     +:+ nm +:+ "': " +:+ exc_str e |}]))
  /\ (forall line req e v,
        candidate (rstrip_newline line) req -> name req = nm ->
        importlib_metadata_version nm = Raise e ->
        remote_reports nm v -> truthy v = true ->
        exists recs,
          process_line line w =
          (Return (pinned_form (name req) (extras req) (format v) (marker req)),
           append_log w recs))
  /\ (forall e, remote_raises nm e ->
        get_latest_version_from_pypi nm w =
        (Return JNull,
         append_log w [{| levelname := ERROR;
                          message := "Error fetching latest version from PyPI for '"
                                     +:+ nm +:+ "': " +:+ exc_str e |}]))
  /\ (forall line, exists out recs,
        process_line line w = (Return out, append_log w recs)).
Proof.
  split; [ | split; [ | split; [ | split ]]].
  - intros e He Hc. exact (get_installed_version_not_found nm e w He Hc).
  - intros e He Hc. exact (get_installed_version_error nm e w He Hc).
  - intros line req e v (Hb & Hp & Hu & Hs) <- He Hr Hv.
    assert (Hn : not_installed (name req)) by (left; now exists e).
    destruct (process_line_remote line req v w Hb Hp Hu Hs Hn Hr Hv) as [recs H].
    exists recs. rewrite H.
    rewrite reconstruct_pinned_form; [reflexivity | exact Hv].
  - intros e He. exact (get_latest_version_raises nm e w He).
  - intros line.
    destruct (process_line_cases line w) as (out & recs & H & _).
    now exists out, recs.
Qed.

(** C10. Versions are tested for truth, not for presence.  When the
    local registry returns the empty string the line is treated as not
    installed: the remote index is asked and the line is pinned to the
    version it reports.  When the remote index reports the empty string
    the line is kept as it is and the warning that the package could not
    be found is logged. *)
Theorem empty_versions_count_as_absent line w req :
  candidate (rstrip_newline line) req ->
  (importlib_metadata_version (name req) = Return "" ->
   forall W, W <> "" -> remote_reports (name req) (JStr W) ->
     process_line line w =
     (Return (pinned_form (name req) (extras req) W (marker req)), w))
  /\ (not_installed (name req) ->
      remote_reports (name req) (JStr "") ->
      exists recs,
        process_line line w =
        (Return (rstrip_newline line),
         append_log w
           (recs ++ [{| levelname := WARNING;
                        message := "Could not find '" +:+ name req
                                   +:+ "' on PyPI." |}]))).
Proof.
  intros (Hb & Hp & Hu & Hs). split.
  - intros He W HW Hr.
    rewrite (process_line_candidate line req w Hb Hp Hu Hs).
    unfold bind. rewrite (get_installed_version_found _ _ _ He).
    cbn [py_opt truthy str_truthy].
    rewrite (get_latest_version_reported _ _ _ Hr).
    cbn [truthy]. rewrite (str_truthy_true W HW). unfold ret.
    rewrite reconstruct_pinned_form; [reflexivity | ].
    now apply str_truthy_true.
  - intros Hn Hr.
    destruct (process_line_unresolved line req w Hb Hp Hu Hs Hn) as [recs H].
    { right. now exists (JStr ""). }
    exists recs. exact H.
Qed.


(** ** Lines of a text *)

Lemma lacks_app x a b : lacks x (a +:+ b) = lacks x a && lacks x b.
Proof.
  induction a as [|c a IH]; simpl; [reflexivity | ].
  rewrite IH. now rewrite andb_assoc.
Qed.

Lemma single_line_app a b :
  single_line (a +:+ b) = single_line a && single_line b.
Proof.
  unfold single_line. rewrite !lacks_app.
  destruct (lacks LF a), (lacks LF b), (lacks CR a), (lacks CR b); reflexivity.
Qed.

Lemma rstrip_newline_lacks b :
  lacks LF b = true -> rstrip_newline b = b.
Proof.
  unfold rstrip_newline. induction b as [|c b IH]; cbn [rstrip lacks];
    [reflexivity | ].
  intros H. apply andb_true_iff in H as [Hc Hb]. rewrite (IH Hb).
  destruct b; [ | reflexivity ].
  rewrite Ascii.eqb_sym. apply negb_true_iff in Hc. now rewrite Hc.
Qed.

Lemma rstrip_newline_line b :
  lacks LF b = true -> rstrip_newline (b +:+ NL) = b.
Proof.
  unfold rstrip_newline. induction b as [|c b IH]; [reflexivity | ].
  intros H. cbn [lacks] in H. apply andb_true_iff in H as [Hc Hb].
  cbn [String.append rstrip]. rewrite (IH Hb).
  destruct b; [ | reflexivity ].
  rewrite Ascii.eqb_sym. apply negb_true_iff in Hc. now rewrite Hc.
Qed.

(** A line the iteration hands out is a body without line feed, followed
    by a line feed or, for the last line of a text that does not end in
    one, by nothing. *)
Lemma readlines_shape text :
  Forall (fun l => exists b, lacks LF b = true /\ (l = b +:+ NL \/ l = b))
         (readlines text).
Proof.
  induction text as [|c t IH]; simpl; [constructor | ].
  destruct (Ascii.eqb c LF) eqn:Hc.
  - constructor; [ | exact IH ].
    apply Ascii.eqb_eq in Hc. subst c. exists "". split; [reflexivity | now left].
  - destruct (readlines t) as [|l ls].
    + constructor; [ | constructor ].
      exists (String c ""). simpl. rewrite Hc. split; [reflexivity | now right].
    + inversion IH as [|? ? (b & Hb & Hl) Hls]; subst.
      constructor; [ | exact Hls ].
      exists (String c b). simpl. rewrite Hc, Hb. split; [reflexivity | ].
      destruct Hl as [-> | ->]; [now left | now right].
Qed.

Lemma readlines_lacks x text :
  lacks x text = true ->
  Forall (fun l => lacks x l = true) (readlines text).
Proof.
  induction text as [|c t IH]; simpl; [constructor | ].
  intros H. apply andb_true_iff in H as [Hc Ht]. specialize (IH Ht).
  destruct (Ascii.eqb c LF).
  - constructor; [ simpl; now rewrite Hc | exact IH ].
  - destruct (readlines t) as [|l ls].
    + constructor; [ simpl; now rewrite Hc | constructor ].
    + inversion IH; subst. constructor; [ simpl; now rewrite Hc | assumption ].
Qed.

Lemma universal_newlines_lacks_CR text : lacks CR (universal_newlines text) = true.
Proof.
  assert (H : forall n t, (String.length t <= n)%nat ->
                          lacks CR (universal_newlines t) = true).
  { induction n as [|n IH]; intros [|c t] Hl; simpl in Hl; try reflexivity; try lia.
    simpl. destruct (Ascii.eqb c CR) eqn:Hc.
    - destruct t as [|d t]; [reflexivity | ].
      destruct (Ascii.eqb d LF); cbn [lacks];
        change (Ascii.eqb LF CR) with false; cbn [negb andb];
        apply IH; cbn [String.length] in *; lia.
    - cbn [lacks]. rewrite Hc. cbn [negb andb]. apply IH. lia. }
  now apply (H (String.length text)).
Qed.

Lemma universal_newlines_id text :
  lacks CR text = true -> universal_newlines text = text.
Proof.
  induction text as [|c t IH]; simpl; [reflexivity | ].
  intros H. apply andb_true_iff in H as [Hc Ht].
  apply negb_true_iff in Hc. rewrite Hc. now rewrite (IH Ht).
Qed.

(** The lines handed out for a file: the body of each is one line. *)
Lemma file_lines_shape text :
  Forall (fun l => exists b, single_line b = true /\ (l = b +:+ NL \/ l = b))
         (readlines (universal_newlines text)).
Proof.
  pose proof (readlines_shape (universal_newlines text)) as Hs.
  pose proof (readlines_lacks CR _ (universal_newlines_lacks_CR text)) as Hc.
  rewrite Forall_forall in Hs, Hc. apply Forall_forall. intros l Hl.
  destruct (Hs l Hl) as (b & Hb & Hlb). specialize (Hc l Hl).
  exists b. split; [ | exact Hlb ].
  unfold single_line. rewrite Hb. simpl.
  destruct Hlb as [-> | ->]; [ | exact Hc ].
  rewrite lacks_app in Hc. now apply andb_true_iff in Hc as [Hc _].
Qed.

Lemma single_line_lacks_LF b : single_line b = true -> lacks LF b = true.
Proof. unfold single_line. intros H. now apply andb_true_iff in H as [H _]. Qed.

Lemma single_line_lacks_CR b : single_line b = true -> lacks CR b = true.
Proof. unfold single_line. intros H. now apply andb_true_iff in H as [_ H]. Qed.


(** C2. A pass-through line (blank, comment, rejected by the parser,
    with a URL, or with a specifier, whatever the local registry says
    of its package) is appended as it was read, without its line feed;
    the files are not touched.  A line handed out by the iteration is
    that output followed by at most one line feed. *)
Theorem pass_through_lines_unchanged line w :
  pass_through (rstrip_newline line) ->
  (exists recs,
     process_line line w = (Return (rstrip_newline line), append_log w recs))
  /\ (forall text, line ∈ readlines (universal_newlines text) ->
        line = rstrip_newline line +:+ NL \/ line = rstrip_newline line).
Proof.
  intros Hpt. split.
  - destruct (is_blank_or_comment (rstrip_newline line)) eqn:Hb.
    { exists []. rewrite append_log_nil. exact (process_line_blank line w Hb). }
    destruct Hpt as [H | [H | [[e H] | (req & Hp & H)]]].
    + unfold is_blank_or_comment in Hb. rewrite H in Hb. discriminate.
    + unfold is_blank_or_comment in Hb. rewrite H in Hb.
      rewrite orb_true_r in Hb. discriminate.
    + eexists. exact (process_line_unparseable line e w Hb H).
    + destruct (truthy (py_opt (url req))) eqn:Hu.
      * exists []. rewrite append_log_nil.
        exact (process_line_url line req w Hb Hp Hu).
      * destruct H as [H | H]; [discriminate | ].
        exact (process_line_versioned line req w Hb Hp Hu H).
  - intros text Hin.
    pose proof (file_lines_shape text) as Hs. rewrite Forall_forall in Hs.
    destruct (Hs line Hin) as (b & Hb & [-> | ->]);
      apply single_line_lacks_LF in Hb.
    + left. now rewrite rstrip_newline_line.
    + right. now rewrite rstrip_newline_lacks.
Qed.

(** ** The file driver *)

Lemma for_each_line_spec lines fault acc w :
  for_each_line lines fault acc w =
  (match fault with
   | None => Return (acc ++ map output_of lines)%list
   | Some e => Raise e
   end,
   append_log w (flat_map records_of lines)).
Proof.
  revert acc w. induction lines as [|l ls IH]; intros acc w; simpl.
  - rewrite append_log_nil, app_nil_r. now destruct fault.
  - unfold bind. rewrite process_line_spec, IH.
    rewrite append_log_app, <- app_assoc. reflexivity.
Qed.

Definition read_error_record (e : exception) : log_record :=
  {| levelname := ERROR;
     message := "Error processing requirements file: " +:+ exc_str e |}.

Lemma update_missing_file path w :
  files w !! path = None ->
  exists e,
    update_requirements_file path w =
    (Return tt, append_log w [read_error_record e]).
Proof.
  intros H. eexists.
  unfold update_requirements_file, bind, try_except, open_read.
  rewrite H. reflexivity.
Qed.

Lemma update_read_fault path text n e w :
  files w !! path = Some text ->
  read_fault path = Some (n, e) ->
  exists recs,
    update_requirements_file path w =
    (Return tt, append_log w (recs ++ [read_error_record e])%list).
Proof.
  intros H Hf. eexists.
  unfold update_requirements_file.
  unfold bind at 1. unfold try_except at 1. unfold bind at 1.
  unfold open_read. rewrite H, Hf. cbn [fst snd].
  unfold bind. rewrite for_each_line_spec.
  unfold logging, ret. rewrite emit_append_log, append_log_app. reflexivity.
Qed.

Definition write_error_record (e : exception) : log_record :=
  {| levelname := ERROR;
     message := "Error writing to requirements file: " +:+ exc_str e |}.

(** A file that is read to its end: the run comes down to the write. *)
Lemma update_read_ok path text w :
  files w !! path = Some text ->
  read_fault path = None ->
  exists recs,
    update_requirements_file path w =
    match write_result path (transform text) with
    | Written =>
        (Return tt,
         {| files := <[path := transform text]> (files w);
            log := log w ++ recs |})
    | OpenFailed e =>
        (Return tt, append_log w (recs ++ [write_error_record e])%list)
    | WriteFailed e kept =>
        (Return tt,
         {| files := <[path := String.substring 0 kept (transform text)]> (files w);
            log := log w ++ recs ++ [write_error_record e] |})
    end.
Proof.
  intros H Hf.
  exists (flat_map records_of (readlines (universal_newlines text))).
  unfold update_requirements_file.
  unfold bind at 1. unfold try_except at 1. unfold bind at 1.
  unfold open_read. rewrite H, Hf. cbn [fst snd].
  unfold bind. rewrite for_each_line_spec. unfold ret.
  cbn [app]. unfold try_except, write_file. fold (transform text).
  destruct (write_result path (transform text)) as [|e|e kept].
  - reflexivity.
  - unfold logging. rewrite emit_append_log, append_log_app. reflexivity.
  - unfold logging. rewrite emit_append_log. unfold append_log. simpl.
    now rewrite <- app_assoc.
Qed.


Lemma lookup_map_output_of (lines : list string) i line :
  lines !! i = Some line -> map output_of lines !! i = Some (output_of line).
Proof.
  revert i. induction lines as [|l ls IH]; intros [|i] H; simpl in *;
    try discriminate.
  - now inversion H.
  - now apply IH.
Qed.

(** C5. A run that reads the file to its end and writes it back: there
    are as many output lines as input lines, the output line at each
    position is what the loop body gives for the input line at that
    position, and the file then holds the output lines joined by one
    line feed and followed by one line feed. *)
Theorem output_lines_follow_input_lines path text w :
  files w !! path = Some text ->
  read_fault path = None ->
  write_result path (transform text) = Written ->
  exists outs recs,
    update_requirements_file path w =
    (Return tt,
     {| files := <[path := join NL outs +:+ NL]> (files w);
        log := log w ++ recs |})
    /\ length outs = length (readlines (universal_newlines text))
    /\ (forall i line,
          readlines (universal_newlines text) !! i = Some line ->
          exists out,
            outs !! i = Some out
            /\ forall w0, fst (process_line line w0) = Return out).
Proof.
  intros H Hf Hw.
  destruct (update_read_ok path text w H Hf) as [recs Hu].
  rewrite Hw in Hu.
  exists (map output_of (readlines (universal_newlines text))), recs.
  split; [exact Hu | ]. split; [apply length_map | ].
  intros i line Hi. exists (output_of line).
  split; [now apply lookup_map_output_of | ].
  intros w0. now rewrite process_line_spec.
Qed.

(** C6. When reading fails, because the file cannot be opened or because
    the iteration over its lines raises, the run logs the error, returns
    and leaves every file as it was, whatever a write would have done. *)
Theorem read_error_aborts_without_write path w :
  files w !! path = None
  \/ (exists text n e, files w !! path = Some text
                       /\ read_fault path = Some (n, e)) ->
  exists recs e,
    update_requirements_file path w =
    (Return tt,
     append_log w
       (recs ++ [{| levelname := ERROR;
                   message := "Error processing requirements file: "
                              +:+ exc_str e |}]))
    /\ files (snd (update_requirements_file path w)) = files w.
Proof.
  intros [H | (text & n & e & H & Hf)].
  - destruct (update_missing_file path w H) as [e Hu].
    exists [], e. rewrite Hu. split; reflexivity.
  - destruct (update_read_fault path text n e w H Hf) as [recs Hu].
    exists recs, e. rewrite Hu. split; reflexivity.
Qed.

(** C7. The run never raises: whatever the parser, the two lookups and
    the disk do (each may raise), [update_requirements_file] returns. *)
Theorem update_requirements_file_never_raises path w :
  exists w', update_requirements_file path w = (Return tt, w').
Proof.
  destruct (files w !! path) as [text|] eqn:H.
  - destruct (read_fault path) as [[n e]|] eqn:Hf.
    + destruct (update_read_fault path text n e w H Hf) as [recs Hu]. eauto.
    + destruct (update_read_ok path text w H Hf) as [recs Hu].
      destruct (write_result path (transform text)); eauto.
  - destruct (update_missing_file path w H) as [e Hu]. eauto.
Qed.

Lemma transform_empty : transform "" = NL.
Proof. reflexivity. Qed.

Lemma transform_newline : transform NL = NL.
Proof. reflexivity. Qed.

(** C9. An empty file does not stay empty: the run writes one line feed
    into it, and a file that holds one line feed is written back as one
    line feed. *)
Theorem empty_file_becomes_one_newline path w :
  read_fault path = None ->
  write_result path NL = Written ->
  (files w !! path = Some "" ->
   files (snd (update_requirements_file path w)) !! path = Some NL)
  /\ (files w !! path = Some NL ->
      files (snd (update_requirements_file path w)) !! path = Some NL).
Proof.
  intros Hf Hw. split; intros H;
    destruct (update_read_ok path _ w H Hf) as [recs Hu]; rewrite Hu.
  - rewrite transform_empty, Hw. simpl. apply lookup_insert_eq.
  - rewrite transform_newline, Hw. simpl. apply lookup_insert_eq.
Qed.


(** ** A second run *)

Lemma process_line_ext l1 l2 :
  rstrip_newline l1 = rstrip_newline l2 -> process_line l1 = process_line l2.
Proof. intros H. unfold process_line. now rewrite H. Qed.

Lemma output_of_ext l1 l2 :
  rstrip_newline l1 = rstrip_newline l2 -> output_of l1 = output_of l2.
Proof.
  intros H. unfold output_of.
  now rewrite (process_line_ext l1 l2 H), H.
Qed.

Lemma output_of_cases line :
  output_of line = rstrip_newline line
  \/ exists req v,
       candidate (rstrip_newline line) req /\ pin_source req v
       /\ output_of line = reconstruct req (Some "==") v.
Proof.
  destruct (process_line_cases line empty_world) as (out & recs & H & Hc).
  rewrite process_line_spec in H. inversion H; subst out. exact Hc.
Qed.

Lemma single_line_join sep parts :
  single_line sep = true ->
  Forall (fun x => single_line x = true) parts ->
  single_line (join sep parts) = true.
Proof.
  intros Hsep. induction 1 as [|x xs Hx Hxs IH]; [reflexivity | ].
  cbn [join]. destruct xs as [|y ys]; [exact Hx | ].
  rewrite !single_line_app, Hx, Hsep, IH. reflexivity.
Qed.

Section Idempotence.

Hypothesis Hok : collaborators_ok.

Lemma pin_source_truthy req v : pin_source req v -> truthy v = true.
Proof.
  intros [(V & _ & HV & ->) | (_ & _ & Hv)];
    [ now apply str_truthy_true | exact Hv ].
Qed.

Lemma pin_source_single_line req v :
  pin_source req v -> single_line (format v) = true.
Proof.
  intros [(V & Hi & _ & ->) | (_ & Hr & _)].
  - exact (installed_single_line Hok _ _ Hi).
  - exact (remote_single_line Hok _ _ Hr).
Qed.

Lemma pinned_single_line pl req v :
  Requirement pl = Return req -> pin_source req v ->
  single_line (reconstruct req (Some "==") v) = true.
Proof.
  intros Hp Hsrc.
  rewrite reconstruct_pinned_form by exact (pin_source_truthy req v Hsrc).
  destruct (parsed_single_line Hok pl req Hp) as (Hn & He & Hm).
  unfold pinned_form. rewrite !single_line_app, Hn.
  rewrite (pin_source_single_line req v Hsrc).
  assert (Hex : single_line
                  match extras req with
                  | [] => ""
                  | _ => "[" +:+ join "," (extras req) +:+ "]"
                  end = true).
  { destruct (extras req) as [|x xs] eqn:E; [reflexivity | ].
    rewrite !single_line_app, (single_line_join "," _ eq_refl He).
    reflexivity. }
  rewrite Hex. destruct (marker req) as [m|]; [ | reflexivity ].
  rewrite single_line_app, (Hm m eq_refl). reflexivity.
Qed.

Lemma output_single_line text l :
  l ∈ readlines (universal_newlines text) ->
  single_line (output_of l) = true.
Proof.
  intros Hl.
  destruct (output_of_cases l) as [-> | (req & v & (_ & Hp & _) & Hsrc & ->)].
  - pose proof (file_lines_shape text) as Hs. rewrite Forall_forall in Hs.
    destruct (Hs l Hl) as (b & Hb & [-> | ->]).
    + now rewrite rstrip_newline_line by now apply single_line_lacks_LF.
    + now rewrite rstrip_newline_lacks by now apply single_line_lacks_LF.
  - exact (pinned_single_line _ req v Hp Hsrc).
Qed.

(** An output line, read again, is passed through. *)
Lemma output_stable l :
  single_line (output_of l) = true ->
  output_of (output_of l +:+ NL) = output_of l.
Proof.
  intros Hs. pose proof (single_line_lacks_LF _ Hs) as Hlf.
  assert (Hr : rstrip_newline (output_of l) = output_of l)
    by now apply rstrip_newline_lacks.
  rewrite (output_of_ext (output_of l +:+ NL) (output_of l))
    by now rewrite rstrip_newline_line.
  destruct (output_of_cases l) as [Hl | (req & v & (_ & Hp & _) & Hsrc & Hl)].
  - rewrite Hl at 2. rewrite <- Hl at 1.
    apply output_of_ext. now rewrite Hr.
  - destruct (output_of_cases (output_of l))
      as [H | (req' & v' & (_ & Hp' & Hu' & Hs') & _)].
    + now rewrite H.
    + rewrite Hr, Hl in Hp'.
      destruct (reparse_pinned Hok _ req v req' Hp
                  (pin_source_truthy req v Hsrc) Hp') as [Hu | Hsp];
        congruence.
Qed.

Lemma readlines_line o rest :
  lacks LF o = true ->
  readlines (o +:+ NL +:+ rest) = (o +:+ NL) :: readlines rest.
Proof.
  induction o as [|c o IH]; intros H.
  - reflexivity.
  - cbn [lacks] in H. apply andb_true_iff in H as [Hc Ho].
    apply negb_true_iff in Hc.
    cbn [String.append readlines]. rewrite Hc.
    fold (String.append o (NL +:+ rest)). now rewrite (IH Ho).
Qed.

Lemma readlines_join outs :
  outs <> [] ->
  Forall (fun o => lacks LF o = true) outs ->
  readlines (join NL outs +:+ NL) = map (fun o => o +:+ NL) outs.
Proof.
  intros Hne H. induction H as [|o os Ho Hos IH]; [congruence | ].
  cbn [join map]. destruct os as [|o' os'].
  - rewrite <- (append_empty_r (o +:+ NL)) at 1. rewrite append_assoc.
    now rewrite (readlines_line o "" Ho).
  - rewrite !append_assoc. rewrite (readlines_line o _ Ho).
    f_equal. apply IH. discriminate.
Qed.

Lemma join_lacks x outs :
  lacks x NL = true ->
  Forall (fun o => lacks x o = true) outs ->
  lacks x (join NL outs) = true.
Proof.
  intros Hx. induction 1 as [|o os Ho Hos IH]; [reflexivity | ].
  cbn [join]. destruct os as [|o' os']; [exact Ho | ].
  rewrite !lacks_app, Ho, Hx, IH. reflexivity.
Qed.

(** The text a run writes is a fixed point of the transform. *)
Lemma transform_idempotent text :
  transform (transform text) = transform text.
Proof.
  unfold transform at 2 3.
  set (lines := readlines (universal_newlines text)).
  assert (Hsl : Forall (fun o => single_line o = true) (map output_of lines)).
  { apply Forall_forall. intros o Ho.
    apply list_elem_of_In, in_map_iff in Ho as (l & <- & Hl).
    apply list_elem_of_In in Hl. exact (output_single_line text l Hl). }
  destruct lines as [|l ls] eqn:E; [exact transform_newline | ].
  set (outs := map output_of (l :: ls)) in *.
  assert (Hlf : Forall (fun o => lacks LF o = true) outs).
  { eapply Forall_impl; [exact Hsl | ]. intros o. apply single_line_lacks_LF. }
  assert (Hcr : Forall (fun o => lacks CR o = true) outs).
  { eapply Forall_impl; [exact Hsl | ]. intros o. apply single_line_lacks_CR. }
  unfold transform.
  rewrite universal_newlines_id
    by (rewrite lacks_app, (join_lacks CR outs eq_refl Hcr); reflexivity).
  rewrite (readlines_join outs) by (try exact Hlf; discriminate).
  f_equal. f_equal. rewrite map_map.
  assert (Hst : Forall (fun o => output_of (o +:+ NL) = o) outs).
  { subst outs. apply Forall_forall. intros o Ho.
    apply list_elem_of_In, in_map_iff in Ho as (l' & <- & Hl).
    apply output_stable. apply (output_single_line text).
    apply list_elem_of_In. now rewrite <- E in Hl. }
  clear -Hst. induction Hst as [|o os Ho Hos IH]; [reflexivity | ].
  cbn [map]. now rewrite Ho, IH.
Qed.

End Idempotence.

(** C4. A second run changes nothing.  With collaborators that behave
    as [collaborators_ok] says and are the same in both runs, and a
    disk that accepts the writes, the files after a second run of
    [update_requirements_file] are the files after the first. *)
Theorem second_run_changes_nothing path w :
  collaborators_ok ->
  (forall data, write_result path data = Written) ->
  let w1 := snd (update_requirements_file path w) in
  let w2 := snd (update_requirements_file path w1) in
  files w2 = files w1.
Proof.
  intros Hok Hw w1 w2. subst w2.
  destruct (files w !! path) as [text|] eqn:H.
  - destruct (read_fault path) as [[n e]|] eqn:Hf.
    + assert (H1 : files w1 = files w).
      { subst w1. destruct (update_read_fault path text n e w H Hf) as [recs Hu].
        now rewrite Hu. }
      assert (H' : files w1 !! path = Some text) by now rewrite H1.
      destruct (update_read_fault path text n e w1 H' Hf) as [recs Hu].
      now rewrite Hu.
    + assert (H1 : files w1 = <[path := transform text]> (files w)).
      { subst w1. destruct (update_read_ok path text w H Hf) as [recs Hu].
        rewrite Hu, Hw. reflexivity. }
      assert (H' : files w1 !! path = Some (transform text))
        by (rewrite H1; apply lookup_insert_eq).
      destruct (update_read_ok path _ w1 H' Hf) as [recs Hu].
      rewrite Hu, Hw. cbn [snd files].
      rewrite (transform_idempotent Hok), H1. apply insert_insert_eq.
  - assert (H1 : files w1 = files w).
    { subst w1. destruct (update_missing_file path w H) as [e Hu].
      now rewrite Hu. }
    assert (H' : files w1 !! path = None) by now rewrite H1.
    destruct (update_missing_file path w1 H') as [e Hu]. now rewrite Hu.
Qed.

(** ** Beyond the claims: the driver *)

Lemma update_frame path p w :
  p <> path ->
  files (snd (update_requirements_file path w)) !! p = files w !! p.
Proof.
  intros Hp. destruct (files w !! path) as [text|] eqn:H.
  - destruct (read_fault path) as [[n e]|] eqn:Hf.
    + destruct (update_read_fault path text n e w H Hf) as [recs Hu].
      now rewrite Hu.
    + destruct (update_read_ok path text w H Hf) as [recs Hu]. rewrite Hu.
      destruct (write_result path (transform text)); cbn [snd files append_log];
        try reflexivity; now apply lookup_insert_ne.
  - destruct (update_missing_file path w H) as [e Hu]. now rewrite Hu.
Qed.

(** X1. A run on [path] leaves every other file as it was, whatever the
    collaborators and the disk do. *)
Theorem run_touches_only_its_file path p w :
  p <> path ->
  files (snd (update_requirements_file path w)) !! p = files w !! p.
Proof.
  intros Hp. destruct (files w !! path) as [text|] eqn:H.
  - destruct (read_fault path) as [[n e]|] eqn:Hf.
    + destruct (update_read_fault path text n e w H Hf) as [recs Hu].
      now rewrite Hu.
    + destruct (update_read_ok path text w H Hf) as [recs Hu]. rewrite Hu.
      destruct (write_result path (transform text)) as [|e|e kept];
        cbn [snd files append_log].
      * now apply lookup_insert_ne.
      * reflexivity.
      * now apply lookup_insert_ne.
  - destruct (update_missing_file path w H) as [e Hu]. now rewrite Hu.
Qed.

(** X2. A failure of the write is caught: the run returns, the last
    record of the log is the error of the write handler, after what the
    lines logged.  When the file could not be opened for writing the files
    are as before; when the write broke off, the file holds what the
    broken write left and the old text is not put back. *)
Theorem write_error_is_logged_and_not_undone path text e w :
  files w !! path = Some text ->
  read_fault path = None ->
  write_result path (transform text) = OpenFailed e
  \/ (exists kept, write_result path (transform text) = WriteFailed e kept) ->
  exists w',
    update_requirements_file path w = (Return tt, w')
    /\ log w' =
       (log w ++ flat_map records_of (readlines (universal_newlines text))
          ++ [{| levelname := ERROR;
                 message := "Error writing to requirements file: "
                            +:+ exc_str e |}])%list
    /\ (write_result path (transform text) = OpenFailed e -> files w' = files w)
    /\ (forall kept,
          write_result path (transform text) = WriteFailed e kept ->
          files w' =
          <[path := String.substring 0 kept (transform text)]> (files w)).
Proof.
  intros H Hf Hw.
  assert (Hu : update_requirements_file path w =
               match write_result path (transform text) with
               | Written =>
                   (Return tt,
                    {| files := <[path := transform text]> (files w);
                       log := log w ++ flat_map records_of
                                         (readlines (universal_newlines text)) |})
               | OpenFailed e0 =>
                   (Return tt,
                    append_log w
                      (flat_map records_of (readlines (universal_newlines text))
                         ++ [write_error_record e0])%list)
               | WriteFailed e0 kept =>
                   (Return tt,
                    {| files := <[path := String.substring 0 kept (transform text)]>
                                  (files w);
                       log := log w ++ flat_map records_of
                                         (readlines (universal_newlines text))
                                ++ [write_error_record e0] |})
               end).
  { unfold update_requirements_file.
    unfold bind at 1. unfold try_except at 1. unfold bind at 1.
    unfold open_read. rewrite H, Hf. cbn [fst snd].
    unfold bind. rewrite for_each_line_spec. unfold ret.
    cbn [app]. unfold try_except, write_file. fold (transform text).
    destruct (write_result path (transform text)) as [|e0|e0 kept].
    - reflexivity.
    - unfold logging. rewrite emit_append_log, append_log_app. reflexivity.
    - unfold logging. rewrite emit_append_log. unfold append_log. simpl.
      now rewrite <- app_assoc. }
  destruct Hw as [Hw | [kept Hw]]; rewrite Hw in Hu; eexists;
    (split; [exact Hu | ]); cbn [log files append_log];
    (split; [reflexivity | ]); split.
  - intros _. reflexivity.
  - intros kept Hk. rewrite Hw in Hk. discriminate.
  - intros Hk. rewrite Hw in Hk. discriminate.
  - intros kept' Hk. rewrite Hw in Hk. injection Hk as <-. reflexivity.
Qed.

(** X3. The program run as a script works on [requirements.txt] only: it
    returns, every other file is as before, and when [requirements.txt]
    does not exist no file is created. *)
Theorem main_works_on_requirements_txt w :
  exists w',
    main w = (Return tt, w')
    /\ (forall p, p <> "requirements.txt" -> files w' !! p = files w !! p)
    /\ (files w !! "requirements.txt" = None -> files w' = files w).
Proof.
  unfold main.
  assert (Hr : exists w', update_requirements_file "requirements.txt" w =
                          (Return tt, w')).
  { destruct (files w !! "requirements.txt") as [text|] eqn:H.
    - destruct (read_fault "requirements.txt") as [[n e]|] eqn:Hf.
      + destruct (update_read_fault _ text n e w H Hf) as [recs Hu]. eauto.
      + destruct (update_read_ok _ text w H Hf) as [recs Hu].
        destruct (write_result "requirements.txt" (transform text)); eauto.
    - destruct (update_missing_file _ w H) as [e Hu]. eauto. }
  destruct Hr as [w' Hu]. exists w'. split; [exact Hu | ]. split.
  - intros p Hp. pose proof (update_frame "requirements.txt" p w Hp) as Hfr.
    now rewrite Hu in Hfr.
  - intros H. destruct (update_missing_file _ w H) as [e Hu'].
    rewrite Hu' in Hu. now inversion Hu.
Qed.

(** ** Beyond the claims: the lookups and the loop body *)


(** X5. The remote lookup never raises and never touches a file.  When
    the index answers 200 with a body that holds [info.version], that
    value is the result and nothing is logged; otherwise the result is
    [None] and exactly one record is logged, a warning for a status other
    than 200 and an error for an exception. *)
Theorem remote_lookup_outcomes nm w :
  (forall v, remote_reports nm v ->
     get_latest_version_from_pypi nm w = (Return v, w))
  /\ (forall code, remote_status nm code ->
        get_latest_version_from_pypi nm w =
        (Return JNull,
         append_log w [{| levelname := WARNING;
                          message := "Failed to get latest version for '" +:+ nm
                                     +:+ "' from PyPI. Status code: "
                                     +:+ pretty code |}]))
  /\ (forall e, remote_raises nm e ->
        get_latest_version_from_pypi nm w =
        (Return JNull,
         append_log w [{| levelname := ERROR;
                          message := "Error fetching latest version from PyPI for '"
                                     +:+ nm +:+ "': " +:+ exc_str e |}]))
  /\ ((exists v, remote_reports nm v)
      \/ (exists code, remote_status nm code)
      \/ (exists e, remote_raises nm e)).
Proof.
  split; [ | split; [ | split ]].
  - intros v Hr. exact (get_latest_version_reported nm v w Hr).
  - intros code Hc. exact (get_latest_version_status nm code w Hc).
  - intros e He. exact (get_latest_version_raises nm e w He).
  - destruct (remote_reports_or_fails nm) as [H | [H | H]]; auto.
Qed.

Lemma process_line_versioned_world line req w :
  is_blank_or_comment (rstrip_newline line) = false ->
  Requirement (rstrip_newline line) = Return req ->
  truthy (py_opt (url req)) = false ->
  specifier req <> [] ->
  process_line line w =
  (Return (rstrip_newline line), snd (get_installed_version (name req) w)).
Proof.
  intros Hb Hp Hu Hs.
  destruct (get_installed_version_logs_only (name req)) as [iv [recs Hiv]].
  unfold process_line, try_except, bind, call, ret.
  rewrite Hb, Hp, Hu. unfold bind in Hiv |- *. rewrite Hiv.
  destruct (specifier req) as [|c cs]; [congruence | ].
  simpl. now destruct (truthy (py_opt iv)).
Qed.

(** X6. A line with a specifier is kept, but the local registry is asked
    about its package all the same: when that query raises something
    other than "package not found" the line leaves one error record on
    the log; otherwise it leaves none. *)
Theorem versioned_line_still_asks_registry line req w :
  is_blank_or_comment (rstrip_newline line) = false ->
  Requirement (rstrip_newline line) = Return req ->
  truthy (py_opt (url req)) = false ->
  specifier req <> [] ->
  (forall e, importlib_metadata_version (name req) = Raise e ->
     is_PackageNotFoundError e = false ->
     process_line line w =
     (Return (rstrip_newline line),
      append_log w [{| levelname := ERROR;
                       message := "Error getting installed version for '"
                                  +:+ name req +:+ "': " +:+ exc_str e |}]))
  /\ ((exists v, importlib_metadata_version (name req) = Return v)
      \/ (exists e, importlib_metadata_version (name req) = Raise e
                    /\ is_PackageNotFoundError e = true) ->
      process_line line w = (Return (rstrip_newline line), w)).
Proof.
  intros Hb Hp Hu Hs.
  rewrite (process_line_versioned_world line req w Hb Hp Hu Hs). split.
  - intros e He Hc. now rewrite (get_installed_version_error _ e w He Hc).
  - intros [[v Hv] | (e & He & Hc)].
    + now rewrite (get_installed_version_found _ v w Hv).
    + now rewrite (get_installed_version_not_found _ e w He Hc).
Qed.

(** X7. An unversioned line whose package is unknown to the local
    registry and for which the index answers with a status other than 200
    is kept and leaves two warnings on the log, in this order: the status
    of the answer, then that the package could not be found. *)
Theorem unknown_package_logs_two_warnings line req code e w :
  candidate (rstrip_newline line) req ->
  importlib_metadata_version (name req) = Raise e ->
  is_PackageNotFoundError e = true ->
  remote_status (name req) code ->
  process_line line w =
  (Return (rstrip_newline line),
   append_log w
     [{| levelname := WARNING;
         message := "Failed to get latest version for '" +:+ name req
                    +:+ "' from PyPI. Status code: " +:+ pretty code |};
      {| levelname := WARNING;
         message := "Could not find '" +:+ name req +:+ "' on PyPI." |}]).
Proof.
  intros (Hb & Hp & Hu & Hs) He Hc Hst.
  rewrite (process_line_candidate line req w Hb Hp Hu Hs).
  unfold bind. rewrite (get_installed_version_not_found _ e w He Hc).
  cbn [py_opt truthy].
  rewrite (get_latest_version_status _ code w Hst). cbn [truthy].
  unfold logging, ret. rewrite emit_append_log, append_log_app. reflexivity.
Qed.

(** X8. What the index reports is tested for truth whatever its type: a
    reported value that is false in a condition (null, false, zero, an
    empty string, list or object) keeps the line and logs the warning; any
    other value, string or not, is formatted into the pinned line. *)
Theorem remote_value_is_tested_for_truth line req v w :
  candidate (rstrip_newline line) req ->
  not_installed (name req) ->
  remote_reports (name req) v ->
  exists recs,
    process_line line w =
    (Return (if truthy v
             then pinned_form (name req) (extras req) (format v) (marker req)
             else rstrip_newline line),
     append_log w
       (recs ++ if truthy v then []
                else [{| levelname := WARNING;
                         message := "Could not find '" +:+ name req
                                    +:+ "' on PyPI." |}])).
Proof.
  intros (Hb & Hp & Hu & Hs) Hn Hr. destruct (truthy v) eqn:Hv.
  - destruct (process_line_remote line req v w Hb Hp Hu Hs Hn Hr Hv) as [recs H].
    exists recs. rewrite H, app_nil_r.
    rewrite reconstruct_pinned_form; [reflexivity | exact Hv].
  - destruct (process_line_unresolved line req w Hb Hp Hu Hs Hn) as [recs H].
    { right. now exists v. }
    exists recs. exact H.
Qed.

(** ** Beyond the claims: the text that is written *)

Lemma readlines_nil s : readlines s = [] -> s = "".
Proof.
  destruct s as [|c s]; [reflexivity | ]. simpl.
  destruct (Ascii.eqb c LF); [discriminate | ].
  destruct (readlines s); discriminate.
Qed.

Lemma universal_newlines_nil s : universal_newlines s = "" -> s = "".
Proof.
  destruct s as [|c s]; [reflexivity | ]. simpl.
  destruct (Ascii.eqb c CR); [ | discriminate ].
  destruct s as [|d s]; [discriminate | ].
  destruct (Ascii.eqb d LF); discriminate.
Qed.

Lemma file_lines_not_nil text :
  text <> "" -> readlines (universal_newlines text) <> [].
Proof.
  intros Ht H. apply readlines_nil, universal_newlines_nil in H. contradiction.
Qed.

Lemma outputs_single_line text :
  collaborators_ok ->
  Forall (fun o => single_line o = true)
         (map output_of (readlines (universal_newlines text))).
Proof.
  intros Hok. apply Forall_forall. intros o Ho.
  apply list_elem_of_In, in_map_iff in Ho as (l & <- & Hl).
  apply list_elem_of_In in Hl. exact (output_single_line Hok text l Hl).
Qed.

Lemma transform_lacks_CR text :
  collaborators_ok -> lacks CR (transform text) = true.
Proof.
  intros Hok. unfold transform. rewrite lacks_app.
  rewrite join_lacks; [reflexivity | reflexivity | ].
  eapply Forall_impl; [exact (outputs_single_line text Hok) | ].
  intros o. apply single_line_lacks_CR.
Qed.

(** X9. With collaborators that give one-line fields and versions, the
    text a run writes holds no carriage return: a file with CR LF or CR
    line ends comes out with line feeds only. *)
Theorem written_text_has_no_carriage_return text :
  collaborators_ok -> lacks CR (transform text) = true.
Proof.
  intros Hok. unfold transform. rewrite lacks_app.
  assert (Hcr : Forall (fun o => lacks CR o = true)
                       (map output_of (readlines (universal_newlines text)))).
  { eapply Forall_impl; [exact (outputs_single_line text Hok) | ].
    intros o. apply single_line_lacks_CR. }
  now rewrite (join_lacks CR _ eq_refl Hcr).
Qed.

(** X10. With such collaborators, reading the written text again hands
    out the output lines of the run, each followed by one line feed: a run
    on a file that is not empty neither merges nor splits lines. *)
Theorem written_text_reads_back_as_output_lines text :
  collaborators_ok -> text <> "" ->
  readlines (universal_newlines (transform text)) =
  map (fun l => output_of l +:+ NL) (readlines (universal_newlines text)).
Proof.
  intros Hok Ht.
  rewrite universal_newlines_id
    by exact (transform_lacks_CR text Hok).
  unfold transform. rewrite readlines_join.
  - now rewrite map_map.
  - intros H. apply map_eq_nil in H. now apply (file_lines_not_nil text Ht).
  - eapply Forall_impl; [exact (outputs_single_line text Hok) | ].
    intros o. apply single_line_lacks_LF.
Qed.

Lemma process_line_pass_through line w :
  pass_through (rstrip_newline line) ->
  exists recs,
    process_line line w = (Return (rstrip_newline line), append_log w recs).
Proof.
  intros Hpt. destruct (is_blank_or_comment (rstrip_newline line)) eqn:Hb.
  { exists []. rewrite append_log_nil. exact (process_line_blank line w Hb). }
  destruct Hpt as [H | [H | [[e H] | (req & Hp & H)]]].
  - unfold is_blank_or_comment in Hb. rewrite H in Hb. discriminate.
  - unfold is_blank_or_comment in Hb. rewrite H in Hb.
    rewrite orb_true_r in Hb. discriminate.
  - eexists. exact (process_line_unparseable line e w Hb H).
  - destruct (truthy (py_opt (url req))) eqn:Hu.
    + exists []. rewrite append_log_nil.
      exact (process_line_url line req w Hb Hp Hu).
    + destruct H as [H | H]; [discriminate | ].
      exact (process_line_versioned line req w Hb Hp Hu H).
Qed.

Lemma output_of_pass_through line :
  pass_through (rstrip_newline line) -> output_of line = rstrip_newline line.
Proof.
  intros Hpt.
  destruct (process_line_pass_through line empty_world Hpt) as [recs H].
  rewrite process_line_spec in H. now inversion H.
Qed.

Lemma rstrip_newline_cons c l :
  Ascii.eqb c LF = false ->
  rstrip_newline (String c l) = String c (rstrip_newline l).
Proof.
  intros Hc. unfold rstrip_newline. cbn [rstrip].
  destruct (rstrip (Ascii.eqb LF) l); [ | reflexivity ].
  now rewrite Ascii.eqb_sym, Hc.
Qed.

Lemma join_cons_char c x xs :
  join NL (String c x :: xs) = String c (join NL (x :: xs)).
Proof. destruct xs; reflexivity. Qed.

(** Cutting a text into lines, taking the line feeds off and joining the
    lines again gives the text back, up to its final line feed. *)
Lemma join_stripped_lines s :
  s <> "" ->
  join NL (map rstrip_newline (readlines s)) +:+ NL = with_final_newline s.
Proof.
  induction s as [|c s IH]; [congruence | ]. intros _.
  cbn [readlines]. destruct (Ascii.eqb c LF) eqn:Hc.
  - apply Ascii.eqb_eq in Hc. subst c.
    destruct s as [|d s']; [reflexivity | ].
    specialize (IH ltac:(discriminate)).
    destruct (readlines (String d s')) as [|l ls] eqn:E;
      [ apply readlines_nil in E; discriminate | ].
    change (with_final_newline (String LF (String d s')))
      with (String LF (with_final_newline (String d s'))).
    rewrite <- IH. reflexivity.
  - destruct (readlines s) as [|l ls] eqn:E.
    + apply readlines_nil in E. subst s.
      cbn [map]. rewrite rstrip_newline_cons by exact Hc.
      cbn [with_final_newline]. rewrite Hc. reflexivity.
    + assert (Hs : s <> "") by (intros ->; discriminate).
      specialize (IH Hs). cbn [map] in IH |- *.
      rewrite rstrip_newline_cons by exact Hc. rewrite join_cons_char.
      cbn [String.append]. rewrite IH.
      destruct s; [contradiction | reflexivity].
Qed.

Lemma with_final_newline_id b : with_final_newline (b +:+ NL) = b +:+ NL.
Proof.
  induction b as [|c b IH]; [reflexivity | ].
  cbn [String.append with_final_newline]. rewrite IH.
  destruct (b +:+ NL) eqn:E; [ destruct b; discriminate | reflexivity ].
Qed.

(** X11. A file in which every line is passed through (comments, blank
    lines, lines with a specifier or a URL, lines the parser rejects) is
    written back as it was read, with a line feed added at the end when
    it lacked one; when the file has no carriage return and ends in a line
    feed it is written back character for character. *)
Theorem settled_file_is_written_back_as_it_was text :
  text <> "" ->
  Forall (fun l => pass_through (rstrip_newline l))
         (readlines (universal_newlines text)) ->
  transform text = with_final_newline (universal_newlines text)
  /\ (lacks CR text = true ->
      (exists b, text = b +:+ NL) ->
      transform text = text).
Proof.
  intros Ht Hall.
  assert (Hu : universal_newlines text <> "")
    by (intros H; now apply universal_newlines_nil in H).
  assert (Hm : map output_of (readlines (universal_newlines text)) =
               map rstrip_newline (readlines (universal_newlines text))).
  { induction Hall as [|l ls Hl Hls IH]; [reflexivity | ].
    cbn [map]. now rewrite IH, (output_of_pass_through l Hl). }
  assert (H1 : transform text = with_final_newline (universal_newlines text)).
  { unfold transform. rewrite Hm. exact (join_stripped_lines _ Hu). }
  split; [exact H1 | ].
  intros Hcr [b Hb]. rewrite H1, (universal_newlines_id text Hcr), Hb.
  apply with_final_newline_id.
Qed.

End Program.

(** ** Beyond the claims: which collaborator a line needs *)

Lemma lstrip_all_space ws s :
  all_space ws = true -> lstrip isspace (ws +:+ s) = lstrip isspace s.
Proof.
  induction ws as [|c ws IH]; [reflexivity | ].
  cbn [all_space]. intros H. apply andb_true_iff in H as [Hc Hws].
  cbn [String.append lstrip]. rewrite Hc. exact (IH Hws).
Qed.

Lemma strip_all_space ws : all_space ws = true -> strip ws = "".
Proof.
  intros H. unfold strip.
  rewrite <- (append_empty_r ws), (lstrip_all_space ws "" H). reflexivity.
Qed.

Lemma strip_indented_comment ws rest :
  all_space ws = true ->
  exists t, strip (ws +:+ String "#" rest) = String "#" t.
Proof.
  intros H. unfold strip. rewrite (lstrip_all_space ws _ H).
  cbn [lstrip]. change (isspace "#") with false. cbv iota.
  cbn [rstrip]. destruct (rstrip isspace rest) as [|d t].
  - change (isspace "#") with false. cbv iota. now exists "".
  - now exists (String d t).
Qed.

(** X12. A line made of whitespace only, or whose first character after
    any leading whitespace is [#], is appended exactly as it was read,
    indentation included; nothing is logged, and neither the parser nor a
    registry has a say in it. *)
Theorem blank_and_comment_lines_are_kept
    (Requirement : string -> result requirement)
    (importlib_metadata_version : string -> result string)
    (requests_get : string -> result response) (py_str : json -> string)
    line ws rest w :
  all_space ws = true ->
  rstrip_newline line = ws \/ rstrip_newline line = ws +:+ String "#" rest ->
  process_line Requirement importlib_metadata_version requests_get py_str
    line w =
  (Return (rstrip_newline line), w).
Proof.
  intros Hws Hl. apply process_line_blank.
  unfold is_blank_or_comment. destruct Hl as [-> | ->].
  - now rewrite (strip_all_space ws Hws).
  - destruct (strip_indented_comment ws rest Hws) as [t ->].
    apply orb_true_iff. right. unfold startswith.
    apply String.prefix_correct. destruct t; reflexivity.
Qed.

(** X13. For a blank line, a comment, a line the parser rejects and a
    line with a URL, no registry is asked: with the same parser, the
    output line and the log are the same whatever the local registry and
    the remote index are. *)
Theorem unparsed_and_url_lines_ask_no_registry
    (Requirement : string -> result requirement)
    (version1 version2 : string -> result string)
    (get1 get2 : string -> result response) (str1 str2 : json -> string)
    line w :
  is_blank_or_comment (rstrip_newline line) = true
  \/ (exists e, Requirement (rstrip_newline line) = Raise e)
  \/ (exists req, Requirement (rstrip_newline line) = Return req
                  /\ truthy (py_opt (url req)) = true) ->
  process_line Requirement version1 get1 str1 line w =
  process_line Requirement version2 get2 str2 line w.
Proof.
  intros H. destruct (is_blank_or_comment (rstrip_newline line)) eqn:Hb.
  { now rewrite !process_line_blank. }
  destruct H as [H | [[e He] | (req & Hp & Hu)]]; [discriminate | | ].
  - now rewrite !(process_line_unparseable _ _ _ _ line e w Hb He).
  - now rewrite !(process_line_url _ _ _ _ line req w Hb Hp Hu).
Qed.

(** X14. The remote index is asked only for an unversioned line whose
    package has no usable local version: for a line with a specifier, and
    for a line whose package the local registry reports at a version that
    is not empty, the output line and the log are the same whatever the
    remote index is. *)
Theorem index_is_asked_only_without_local_version
    (Requirement : string -> result requirement)
    (importlib_metadata_version : string -> result string)
    (get1 get2 : string -> result response) (str1 str2 : json -> string)
    line req w :
  is_blank_or_comment (rstrip_newline line) = false ->
  Requirement (rstrip_newline line) = Return req ->
  truthy (py_opt (url req)) = false ->
  specifier req <> []
  \/ (exists V, importlib_metadata_version (name req) = Return V /\ V <> "") ->
  process_line Requirement importlib_metadata_version get1 str1 line w =
  process_line Requirement importlib_metadata_version get2 str2 line w.
Proof.
  intros Hb Hp Hu H.
  destruct (specifier req) as [|c cs] eqn:Hs.
  - destruct H as [H | (V & Hi & HV)]; [congruence | ].
    rewrite !(process_line_installed _ _ _ _ line req V w Hb Hp Hu Hs Hi HV).
    rewrite !reconstruct_pinned_form by now apply str_truthy_true.
    reflexivity.
  - assert (Hne : specifier req <> []) by (rewrite Hs; discriminate).
    now rewrite !(process_line_versioned_world _ _ _ _ line req w Hb Hp Hu Hne).
Qed.

(** ** The program on the sample environment *)

Module SampleRun.

Definition process_line : string -> M string :=
  process_line Sample.Requirement Sample.version Sample.get Sample.str.

Definition update_requirements_file : string -> M unit :=
  update_requirements_file Sample.Requirement Sample.version Sample.get
    Sample.str Sample.read_fault Sample.write_result.

Definition requirements : world :=
  Sample.world_with "requirements.txt" Sample.text.

End SampleRun.

Example readlines_keeps_line_feeds :
  readlines ("a" +:+ NL +:+ NL +:+ "b") = ["a" +:+ NL; NL; "b"].
Proof. reflexivity. Qed.

Example universal_newlines_translates :
  universal_newlines ("a" +:+ String CR NL +:+ String CR "b") =
  "a" +:+ NL +:+ NL +:+ "b".
Proof. reflexivity. Qed.

Example strip_comment : strip "  # x  " = "# x".
Proof. reflexivity. Qed.

Example numpy_is_pinned :
  SampleRun.process_line ("numpy" +:+ NL) empty_world =
  (Return "numpy==1.26.4", empty_world).
Proof. reflexivity. Qed.

Example sample_file_after_one_run :
  files (snd (SampleRun.update_requirements_file "requirements.txt"
                SampleRun.requirements)) !! "requirements.txt" =
  Some ("# pinned manually" +:+ NL +:+ "numpy==1.26.4" +:+ NL
        +:+ "flask[async]>=2.0" +:+ NL +:+ NL
        +:+ "rich[jupyter,docs]==13.7.1; python_version > "
        +:+ Sample.DQ +:+ "3.8" +:+ Sample.DQ +:+ NL
        +:+ "mylib @ git+https://example.com/mylib.git" +:+ NL
        +:+ "requests==2.32.3" +:+ NL +:+ "-r other.txt" +:+ NL
        +:+ "leftpad" +:+ NL).
Proof. vm_compute. reflexivity. Qed.

(** The sample collaborators behave as [collaborators_ok] asks. *)

Lemma contains_eqeq_app a b : Sample.contains_eqeq (a +:+ "==" +:+ b) = true.
Proof.
  change ("==" +:+ b) with (String "=" (String "=" b)).
  induction a as [|c a IH]; [reflexivity | ].
  cbn [String.append Sample.contains_eqeq]. rewrite IH. apply orb_true_r.
Qed.

Lemma sample_parsed_cases s r :
  Sample.Requirement s = Return r ->
  (truthy (py_opt (url r)) = true \/ specifier r <> [])
  \/ Sample.contains_eqeq s = false.
Proof.
  unfold Sample.Requirement. revert r.
  destruct (String.eqb_spec s "numpy") as [->|_];
    [ intros r [= <-]; right; reflexivity | ].
  destruct (String.eqb_spec s "  numpy ") as [->|_];
    [ intros r [= <-]; right; reflexivity | ].
  destruct (String.eqb_spec s "numpy==1.26.4") as [->|_];
    [ intros r [= <-]; left; right; discriminate | ].
  destruct (String.eqb_spec s "rich[jupyter,docs];python_version>'3.8'") as [->|_];
    [ intros r [= <-]; right; reflexivity | ].
  destruct (String.eqb_spec s "flask[async]>=2.0") as [->|_];
    [ intros r [= <-]; left; right; discriminate | ].
  destruct (String.eqb_spec s "mylib @ git+https://example.com/mylib.git") as [->|_];
    [ intros r [= <-]; left; left; reflexivity | ].
  destruct (String.eqb_spec s "requests") as [->|_];
    [ intros r [= <-]; right; reflexivity | ].
  destruct (String.eqb_spec s "leftpad") as [->|_];
    [ intros r [= <-]; right; reflexivity | ].
  destruct (String.eqb_spec s "six") as [->|_];
    [ intros r [= <-]; right; reflexivity | ].
  destruct (String.eqb_spec s "nover") as [->|_];
    [ intros r [= <-]; right; reflexivity | ].
  destruct (String.eqb_spec s "broken") as [->|_];
    [ intros r [= <-]; right; reflexivity | ].
  discriminate.
Qed.

Lemma sample_parsed_single_line s r :
  Sample.Requirement s = Return r ->
  single_line (name r) = true
  /\ Forall (fun x => single_line x = true) (extras r)
  /\ (forall m, marker r = Some m -> single_line m = true).
Proof.
  unfold Sample.Requirement. revert r.
  repeat match goal with
         | |- context [String.eqb s ?k] =>
             destruct (String.eqb s k);
             [ intros r [= <-];
               (split; [reflexivity | split; [repeat constructor | ]]);
               intros m [= <-]; reflexivity
             | ]
         end.
  discriminate.
Qed.

Lemma sample_installed_single_line nm v :
  Sample.version nm = Return v -> single_line v = true.
Proof.
  unfold Sample.version. revert v.
  repeat match goal with
         | |- context [String.eqb nm ?k] =>
             destruct (String.eqb nm k);
             [ first [ intros v [= <-]; reflexivity | discriminate ] | ]
         end.
  discriminate.
Qed.

Lemma sample_remote_single_line nm v :
  remote_reports Sample.get nm v -> single_line (format Sample.str v) = true.
Proof.
  intros (resp & data & info & Hg & Hs & Hj & Hi & Hv).
  unfold Sample.get in Hg.
  repeat match type of Hg with
         | context [String.eqb ?u ?k] => destruct (String.eqb u k)
         end;
    try discriminate Hg; injection Hg as <-;
    try (vm_compute in Hs; discriminate Hs);
    vm_compute in Hj; injection Hj as <-;
    vm_compute in Hi; injection Hi as <-;
    vm_compute in Hv; injection Hv as <-; reflexivity.
Qed.

Lemma sample_collaborators_ok :
  collaborators_ok Sample.Requirement Sample.version Sample.get Sample.str.
Proof.
  constructor.
  - exact sample_parsed_single_line.
  - intros l req v req' _ Hv Hp'.
    destruct (sample_parsed_cases _ _ Hp') as [H | H]; [exact H | exfalso].
    rewrite reconstruct_pinned_form in H by exact Hv.
    unfold pinned_form in H. rewrite <- append_assoc in H.
    rewrite contains_eqeq_app in H. discriminate.
  - exact sample_installed_single_line.
  - exact sample_remote_single_line.
Qed.

(** ** The theorems at work on the sample environment *)

Lemma pins_installed_version_with_eq_witness :
  SampleRun.process_line ("rich[jupyter,docs];python_version>'3.8'" +:+ NL)
    empty_world =
  (Return ("rich[jupyter,docs]==13.7.1; python_version > "
           +:+ Sample.DQ +:+ "3.8" +:+ Sample.DQ),
   empty_world).
Proof.
  refine (proj1 (pins_installed_version_with_eq
                   Sample.Requirement Sample.version Sample.get Sample.str
                   ("rich[jupyter,docs];python_version>'3.8'" +:+ NL)
                   empty_world Sample.req_rich "13.7.1" _ _ _)).
  - repeat split.
  - reflexivity.
  - discriminate.
Defined.

Lemma pass_through_lines_unchanged_witness :
  exists recs,
    SampleRun.process_line ("flask[async]>=2.0" +:+ NL) empty_world =
    (Return "flask[async]>=2.0", append_log empty_world recs).
Proof.
  refine (proj1 (pass_through_lines_unchanged
                   Sample.Requirement Sample.version Sample.get Sample.str
                   ("flask[async]>=2.0" +:+ NL) empty_world _)).
  right. right. right. exists Sample.req_flask.
  split; [reflexivity | right; discriminate].
Defined.

Lemma sample_requests_reported :
  remote_reports Sample.get "requests" (JStr "2.32.3").
Proof.
  exists (Sample.info_version "2.32.3"),
         (JObj [("info", JObj [("version", JStr "2.32.3")])]),
         (JObj [("version", JStr "2.32.3")]).
  repeat split.
Qed.

Lemma pins_remote_version_or_keeps_line_witness :
  exists recs,
    SampleRun.process_line ("requests" +:+ NL) empty_world =
    (Return "requests==2.32.3", append_log empty_world recs).
Proof.
  refine (proj1 (pins_remote_version_or_keeps_line
                   Sample.Requirement Sample.version Sample.get Sample.str
                   ("requests" +:+ NL) empty_world (Sample.plain "requests") _ _)
            "2.32.3" _ sample_requests_reported).
  - repeat split.
  - left. eexists. reflexivity.
  - discriminate.
Defined.

Lemma second_run_changes_nothing_witness :
  files (snd (SampleRun.update_requirements_file "requirements.txt"
                (snd (SampleRun.update_requirements_file "requirements.txt"
                        SampleRun.requirements)))) =
  files (snd (SampleRun.update_requirements_file "requirements.txt"
                SampleRun.requirements)).
Proof.
  exact (second_run_changes_nothing
           Sample.Requirement Sample.version Sample.get Sample.str
           Sample.read_fault Sample.write_result
           "requirements.txt" SampleRun.requirements
           sample_collaborators_ok (fun _ => eq_refl)).
Defined.

Lemma output_lines_follow_input_lines_witness :
  exists outs,
    length outs = 9%nat
    /\ files (snd (SampleRun.update_requirements_file "requirements.txt"
                     SampleRun.requirements)) !! "requirements.txt" =
       Some (join NL outs +:+ NL).
Proof.
  destruct (output_lines_follow_input_lines
              Sample.Requirement Sample.version Sample.get Sample.str
              Sample.read_fault Sample.write_result
              "requirements.txt" Sample.text SampleRun.requirements)
    as (outs & recs & Hu & Hlen & _).
  - apply lookup_singleton_eq.
  - reflexivity.
  - reflexivity.
  - exists outs. split; [exact Hlen | ].
    unfold SampleRun.update_requirements_file. rewrite Hu.
    apply lookup_insert_eq.
Defined.

Lemma read_error_aborts_without_write_witness :
  files (snd (SampleRun.update_requirements_file "unreadable.txt"
                (Sample.world_with "unreadable.txt" Sample.text))) =
  files (Sample.world_with "unreadable.txt" Sample.text).
Proof.
  destruct (read_error_aborts_without_write
              Sample.Requirement Sample.version Sample.get Sample.str
              Sample.read_fault Sample.write_result
              "unreadable.txt" (Sample.world_with "unreadable.txt" Sample.text))
    as (recs & e & _ & H).
  - right. exists Sample.text. eexists. eexists.
    split; [apply lookup_singleton_eq | reflexivity].
  - exact H.
Defined.

Lemma lookups_fail_open_witness :
  exists recs,
    SampleRun.process_line ("broken" +:+ NL) empty_world =
    (Return "broken==0.1", append_log empty_world recs).
Proof.
  destruct (lookups_fail_open
              Sample.Requirement Sample.version Sample.get Sample.str
              "broken" empty_world) as (_ & _ & H & _).
  refine (H ("broken" +:+ NL) (Sample.plain "broken") _ (JStr "0.1") _ _ _ _ _).
  - repeat split.
  - reflexivity.
  - reflexivity.
  - exists (Sample.info_version "0.1"),
           (JObj [("info", JObj [("version", JStr "0.1")])]),
           (JObj [("version", JStr "0.1")]).
    repeat split.
  - reflexivity.
Defined.

Lemma empty_file_becomes_one_newline_witness :
  files (snd (SampleRun.update_requirements_file "requirements.txt"
                (Sample.world_with "requirements.txt" ""))) !! "requirements.txt" =
  Some NL.
Proof.
  refine (proj1 (empty_file_becomes_one_newline
                   Sample.Requirement Sample.version Sample.get Sample.str
                   Sample.read_fault Sample.write_result
                   "requirements.txt" (Sample.world_with "requirements.txt" "")
                   _ _) _).
  - reflexivity.
  - reflexivity.
  - apply lookup_singleton_eq.
Defined.

Lemma empty_versions_count_as_absent_witness :
  SampleRun.process_line ("six" +:+ NL) empty_world =
  (Return "six==1.16.0", empty_world).
Proof.
  refine (proj1 (empty_versions_count_as_absent
                   Sample.Requirement Sample.version Sample.get Sample.str
                   ("six" +:+ NL) empty_world (Sample.plain "six") _)
            _ "1.16.0" _ _).
  - repeat split.
  - reflexivity.
  - discriminate.
  - exists (Sample.info_version "1.16.0"),
           (JObj [("info", JObj [("version", JStr "1.16.0")])]),
           (JObj [("version", JStr "1.16.0")]).
    repeat split.
Defined.

(** ** Further runs on the sample environment *)

Module SampleFaults.

(** A disk that breaks a write off after five characters. *)
Definition disk_full (path data : string) : write_outcome :=
  WriteFailed {| exc_type := OSError;
                 exc_str := "[Errno 28] No space left on device" |} 5.

(** An index that reports a number where a version string is due. *)
Definition get_number (u : string) : result response :=
  Return {| status_code := 200;
            json_body := Return (JObj [("info", JObj [("version", JInt 3)])]) |}.

(** An index that cannot be reached. *)
Definition get_offline (u : string) : result response :=
  Raise {| exc_type := RequestException; exc_str := "Connection refused" |}.

(** A registry in which nothing is installed. *)
Definition nothing_installed (nm : string) : result string :=
  Raise {| exc_type := PackageNotFoundError;
           exc_str := "No package metadata was found for " +:+ nm |}.

Definition two_files : world :=
  {| files := <["notes.txt" := "numpy"]> {[ "requirements.txt" := Sample.text ]};
     log := [] |}.

Definition settled : string :=
  "  # tools" +:+ NL +:+ "flask[async]>=2.0" +:+ NL +:+ NL
  +:+ "mylib @ git+https://example.com/mylib.git" +:+ NL.

End SampleFaults.

Lemma run_touches_only_its_file_witness :
  files (snd (SampleRun.update_requirements_file "requirements.txt"
                SampleFaults.two_files)) !! "notes.txt" =
  Some "numpy".
Proof.
  unfold SampleRun.update_requirements_file.
  rewrite (run_touches_only_its_file
             Sample.Requirement Sample.version Sample.get Sample.str
             Sample.read_fault Sample.write_result
             "requirements.txt" "notes.txt" SampleFaults.two_files);
    [ | discriminate ].
  apply lookup_insert_eq.
Defined.

Lemma write_error_is_logged_and_not_undone_witness :
  files (snd (update_requirements_file
                Sample.Requirement Sample.version Sample.get Sample.str
                Sample.read_fault SampleFaults.disk_full
                "requirements.txt" SampleRun.requirements))
    !! "requirements.txt" =
  Some "# pin".
Proof.
  destruct (write_error_is_logged_and_not_undone
              Sample.Requirement Sample.version Sample.get Sample.str
              Sample.read_fault SampleFaults.disk_full
              "requirements.txt" Sample.text
              {| exc_type := OSError;
                 exc_str := "[Errno 28] No space left on device" |}
              SampleRun.requirements)
    as (w' & Hu & _ & _ & Hk).
  - apply lookup_singleton_eq.
  - reflexivity.
  - right. exists 5%nat. reflexivity.
  - rewrite Hu. cbn [snd]. rewrite (Hk 5%nat eq_refl).
    rewrite lookup_insert_eq. f_equal.
Defined.

Lemma versioned_line_still_asks_registry_witness :
  SampleRun.process_line ("flask[async]>=2.0" +:+ NL) empty_world =
  (Return "flask[async]>=2.0", empty_world).
Proof.
  refine (proj2 (versioned_line_still_asks_registry
                   Sample.Requirement Sample.version Sample.get Sample.str
                   ("flask[async]>=2.0" +:+ NL) Sample.req_flask empty_world
                   _ _ _ _) _).
  - reflexivity.
  - reflexivity.
  - reflexivity.
  - discriminate.
  - left. now exists "3.0.0".
Defined.

Lemma unknown_package_logs_two_warnings_witness :
  SampleRun.process_line ("leftpad" +:+ NL) empty_world =
  (Return "leftpad",
   append_log empty_world
     [{| levelname := WARNING;
         message := "Failed to get latest version for 'leftpad' from PyPI. Status code: 404" |};
      {| levelname := WARNING;
         message := "Could not find 'leftpad' on PyPI." |}]).
Proof.
  refine (unknown_package_logs_two_warnings
            Sample.Requirement Sample.version Sample.get Sample.str
            ("leftpad" +:+ NL) (Sample.plain "leftpad") 404 _ empty_world
            _ _ _ _).
  - repeat split.
  - reflexivity.
  - reflexivity.
  - eexists. repeat split. discriminate.
Defined.

Lemma remote_value_is_tested_for_truth_witness :
  exists recs,
    process_line Sample.Requirement Sample.version SampleFaults.get_number
      Sample.str ("requests" +:+ NL) empty_world =
    (Return "requests==3", append_log empty_world (recs ++ [])).
Proof.
  refine (remote_value_is_tested_for_truth
            Sample.Requirement Sample.version SampleFaults.get_number Sample.str
            ("requests" +:+ NL) (Sample.plain "requests") (JInt 3) empty_world
            _ _ _).
  - repeat split.
  - left. eexists. reflexivity.
  - exists {| status_code := 200;
              json_body := Return (JObj [("info", JObj [("version", JInt 3)])]) |},
           (JObj [("info", JObj [("version", JInt 3)])]),
           (JObj [("version", JInt 3)]).
    repeat split.
Defined.

Lemma written_text_has_no_carriage_return_witness :
  lacks CR (transform Sample.Requirement Sample.version Sample.get Sample.str
              Sample.text) = true.
Proof.
  exact (written_text_has_no_carriage_return
           Sample.Requirement Sample.version Sample.get Sample.str
           Sample.text sample_collaborators_ok).
Defined.

Lemma written_text_reads_back_as_output_lines_witness :
  length (readlines
            (universal_newlines
               (transform Sample.Requirement Sample.version Sample.get
                  Sample.str Sample.text))) = 9%nat.
Proof.
  rewrite (written_text_reads_back_as_output_lines
             Sample.Requirement Sample.version Sample.get Sample.str
             Sample.text sample_collaborators_ok);
    [ reflexivity | discriminate ].
Defined.

Lemma settled_file_is_written_back_as_it_was_witness :
  transform Sample.Requirement Sample.version Sample.get Sample.str
    SampleFaults.settled = SampleFaults.settled.
Proof.
  refine (proj2 (settled_file_is_written_back_as_it_was
                   Sample.Requirement Sample.version Sample.get Sample.str
                   SampleFaults.settled _ _) _ _).
  - discriminate.
  - set (ls := readlines _). vm_compute in ls. subst ls.
    apply Forall_cons_2; [ | apply Forall_cons_2; [ | apply Forall_cons_2;
      [ | apply Forall_cons_2; [ | apply Forall_nil_2 ]]]].
    + right. left. reflexivity.
    + right. right. right. exists Sample.req_flask.
      split; [reflexivity | right; discriminate].
    + left. reflexivity.
    + right. right. right. exists Sample.req_mylib.
      split; [reflexivity | left; reflexivity].
  - reflexivity.
  - exists ("  # tools" +:+ NL +:+ "flask[async]>=2.0" +:+ NL +:+ NL
            +:+ "mylib @ git+https://example.com/mylib.git").
    reflexivity.
Defined.

Lemma blank_and_comment_lines_are_kept_witness :
  SampleRun.process_line ("   # note" +:+ NL) empty_world =
  (Return "   # note", empty_world).
Proof.
  refine (blank_and_comment_lines_are_kept
            Sample.Requirement Sample.version Sample.get Sample.str
            ("   # note" +:+ NL) "   " " note" empty_world _ _).
  - reflexivity.
  - right. reflexivity.
Defined.

Lemma unparsed_and_url_lines_ask_no_registry_witness :
  process_line Sample.Requirement Sample.version Sample.get Sample.str
    ("-r other.txt" +:+ NL) empty_world =
  process_line Sample.Requirement SampleFaults.nothing_installed
    SampleFaults.get_offline (fun _ => "") ("-r other.txt" +:+ NL) empty_world.
Proof.
  refine (unparsed_and_url_lines_ask_no_registry
            Sample.Requirement Sample.version SampleFaults.nothing_installed
            Sample.get SampleFaults.get_offline Sample.str (fun _ => "")
            ("-r other.txt" +:+ NL) empty_world _).
  right. left. eexists. reflexivity.
Defined.

Lemma index_is_asked_only_without_local_version_witness :
  process_line Sample.Requirement Sample.version Sample.get Sample.str
    ("numpy" +:+ NL) empty_world =
  process_line Sample.Requirement Sample.version SampleFaults.get_offline
    (fun _ => "") ("numpy" +:+ NL) empty_world.
Proof.
  refine (index_is_asked_only_without_local_version
            Sample.Requirement Sample.version Sample.get
            SampleFaults.get_offline Sample.str (fun _ => "")
            ("numpy" +:+ NL) (Sample.plain "numpy") empty_world _ _ _ _).
  - reflexivity.
  - reflexivity.
  - reflexivity.
  - right. exists "1.26.4". split; [reflexivity | discriminate].
Defined.
